(** * beancount-import sources: Fifth Third, Vanguard, Wegmans

    A shallow embedding of the three importer modules
    [beancount_import/source/fifththird.py], [vanguard.py] and [wegmans.py],
    and the properties of their record loading, de-duplication and posting
    synthesis.

    Layout: Python values and exceptions, [decimal.Decimal] arithmetic,
    dates, the beancount directives the sources build, [list.sort], then one
    module per source file, then the lemmas. *)

From stdpp Require Import base option list gmap strings pretty sorting.

Open Scope Z_scope.

(** ** Exceptions and fallible computations

    A Python call either returns or raises.  The exceptions below are the
    ones the three modules can meet on decoded JSON input. *)

Inductive exn : Type :=
  | TypeError
  | KeyError
  | ValueError
  | OverflowError
  | InvalidOperation      (* decimal.InvalidOperation *)
  | DivisionByZero        (* decimal.DivisionByZero *)
  | JSONDecodeError
  | AttributeError
  | AssertionError
  | RuntimeError (msg : string).

Inductive Res (A : Type) : Type :=
  | Ok (a : A)
  | Raise (e : exn).
Arguments Ok {A} a.
Arguments Raise {A} e.

#[export] Instance Res_ret : MRet Res := @Ok.

#[export] Instance Res_bind : MBind Res := fun A B k m =>
  match m with
  | Ok a => k a
  | Raise e => Raise e
  end.

Definition is_Ok {A} (m : Res A) : bool :=
  match m with Ok _ => true | Raise _ => false end.

(** [for x in l: body(x)] collecting the values the body yields, stopping at
    the first exception. *)
Fixpoint mapR {A B} (f : A → Res B) (l : list A) : Res (list B) :=
  match l with
  | [] => Ok []
  | x :: l' => y ← f x; ys ← mapR f l'; Ok (y :: ys)
  end.

(** ** [decimal.Decimal]

    A finite [Decimal] is a coefficient and an exponent, standing for
    [coef * 10 ^ exp].  The representation is observable ([123.1] and
    [123.10] are different objects that compare equal), so it is kept.
    The sign is carried by the coefficient; a negative zero is not told
    apart from zero.  NaN and the infinities are not part of the model, and
    neither are the exponent limits of the default context (Emax = 999999).

    Arithmetic follows the default context: precision 28, ROUND_HALF_EVEN,
    with InvalidOperation and DivisionByZero trapped. *)

Module Dec.

Record t : Type := mk { coef : Z; exp : Z }.

#[global] Instance t_eq_dec : EqDecision t.
Proof. solve_decision. Defined.

Definition prec : Z := 28.

Definition zero : t := mk 0 0.                 (* Decimal() / D(0) *)
Definition of_Z (z : Z) : t := mk z 0.         (* Decimal(int) *)

(** [len(self._int)]: the number of decimal digits of the coefficient;
    the coefficient [0] is the one digit ['0']. *)
Fixpoint ndigits_aux (fuel : nat) (n : Z) : Z :=
  match fuel with
  | O => 1
  | S f => if n <? 10 then 1 else 1 + ndigits_aux f (n / 10)
  end.

Definition ndigits (n : Z) : Z :=
  ndigits_aux (Z.to_nat (Z.log2 (Z.abs n))) (Z.abs n).

(** [adjusted()]: the exponent of the most significant digit. *)
Definition adjusted (d : t) : Z := exp d + ndigits (coef d) - 1.

(** Division of a coefficient by [p > 0], rounded to the nearest integer,
    ties to the even one (ROUND_HALF_EVEN), on the magnitude. *)
Definition div_half_even (c p : Z) : Z :=
  let a := Z.abs c in
  let q := a / p in
  let r := a mod p in
  Z.sgn c * (if (p <? 2 * r) || ((2 * r =? p) && Z.odd q) then q + 1 else q).

(** [_rescale(exp, ROUND_HALF_EVEN)]: the same number at exponent [e],
    padded with zeros or rounded. *)
Definition rescale (d : t) (e : Z) : t :=
  if e <=? exp d
  then mk (coef d * 10 ^ (exp d - e)) e
  else mk (div_half_even (coef d) (10 ^ (e - exp d))) e.

(** [_fix(context)]: round to at most [prec] digits.  When rounding up
    carries into a further digit the coefficient is cut by one digit and
    the exponent raised. *)
Definition fix_ (d : t) : t :=
  let n := ndigits (coef d) in
  if n <=? prec then d
  else
    let r := rescale d (exp d + (n - prec)) in
    if 10 ^ prec <=? Z.abs (coef r)
    then mk (coef r / 10) (exp r + 1)
    else r.

(** [quantize(Decimal('1e<e>'))]: rescale, refusing a result of more than
    [prec] digits. *)
Definition quantize (d : t) (e : Z) : Res t :=
  if coef d =? 0 then Ok (mk 0 e)
  else if prec <? adjusted d - e + 1 then Raise InvalidOperation
  else
    let r := rescale d e in
    if prec <? ndigits (coef r) then Raise InvalidOperation
    else Ok r.

(** [round(d, n)] is [d.quantize(Decimal('1e-n'))]. *)
Definition round (d : t) (n : Z) : Res t := quantize d (- n).

(** Exact sum and product, then [_fix]. *)
Definition add (a b : t) : t :=
  let e := Z.min (exp a) (exp b) in
  fix_ (mk (coef a * 10 ^ (exp a - e) + coef b * 10 ^ (exp b - e)) e).

Definition neg (a : t) : t := fix_ (mk (- coef a) (exp a)).

Definition sub (a b : t) : t := add a (mk (- coef b) (exp b)).

Definition mul (a b : t) : t :=
  fix_ (mk (coef a * coef b) (exp a + exp b)).

(** Comparison is by value. *)
Definition cmp (a b : t) : comparison :=
  let e := Z.min (exp a) (exp b) in
  (coef a * 10 ^ (exp a - e)) ?= (coef b * 10 ^ (exp b - e)).

Definition eqb (a b : t) : bool :=
  match cmp a b with Eq => true | _ => false end.
Definition ltb (a b : t) : bool :=
  match cmp a b with Lt => true | _ => false end.

Definition is_zero (a : t) : bool := coef a =? 0.

(** [__truediv__]: the quotient to [prec + 1] digits with a sticky last
    digit, then [_fix]; an exact quotient sheds trailing zeros down to
    the ideal exponent [exp a - exp b]. *)
Fixpoint strip_zeros (fuel : nat) (c e ideal : Z) : Z * Z :=
  match fuel with
  | O => (c, e)
  | S f =>
      if (e <? ideal) && (c mod 10 =? 0)
      then strip_zeros f (c / 10) (e + 1) ideal
      else (c, e)
  end.

Definition div (a b : t) : Res t :=
  if coef b =? 0 then
    Raise (if coef a =? 0 then InvalidOperation else DivisionByZero)
  else if coef a =? 0 then Ok (fix_ (mk 0 (exp a - exp b)))
  else
    let sign := Z.sgn (coef a) * Z.sgn (coef b) in
    let shift := ndigits (coef b) - ndigits (coef a) + prec + 1 in
    let e := exp a - exp b - shift in
    let n := Z.abs (coef a) in
    let m := Z.abs (coef b) in
    let '(q, r) :=
      if 0 <=? shift
      then ((n * 10 ^ shift) / m, (n * 10 ^ shift) mod m)
      else (n / (m * 10 ^ (- shift)), n mod (m * 10 ^ (- shift))) in
    let '(c, e') :=
      if r =? 0
      then strip_zeros (Z.to_nat (ndigits q)) q e (exp a - exp b)
      else (if q mod 5 =? 0 then q + 1 else q, e) in
    Ok (fix_ (mk (sign * c) e')).

End Dec.

(** ** [datetime.date]

    A date is identified with its proleptic Gregorian ordinal
    ([date.toordinal()]): day 1 is 0001-01-01 and [date.max], 9999-12-31, is
    day 3652059.  Adding a [timedelta] adds to the ordinal and raises
    OverflowError outside that range. *)

Record date_t : Type := Date { toordinal : Z }.

#[export] Instance date_eq_dec : EqDecision date_t.
Proof. solve_decision. Defined.

Definition MAXORDINAL : Z := 3652059.

Definition date_valid (d : date_t) : Prop := 0 < toordinal d ≤ MAXORDINAL.

(** [d + datetime.timedelta(days=n)] *)
Definition date_add_days (d : date_t) (n : Z) : Res date_t :=
  let o := toordinal d + n in
  if (0 <? o) && (o <=? MAXORDINAL) then Ok (Date o) else Raise OverflowError.

(** ** Python values

    The scalar values that occur as decoded JSON fields, as fields of the
    entry tuples and as ledger metadata values. *)

Inductive PyVal : Type :=
  | PNone
  | PBool (b : bool)
  | PNum (d : Dec.t)                       (* int, float or Decimal *)
  | PStr (s : string)
  | PDate (d : date_t)
  | PAmount (n : Dec.t) (cur : option string).   (* beancount Amount *)

#[export] Instance PyVal_eq_dec : EqDecision PyVal.
Proof. solve_decision. Defined.

(** [bool(v)].  A beancount [Amount] is true when its number is not zero
    ([Amount.__bool__]). *)
Definition truthy (v : PyVal) : bool :=
  match v with
  | PNone => false
  | PBool b => b
  | PNum d => negb (Dec.is_zero d)
  | PStr s => negb (String.eqb s "")
  | PDate _ => true
  | PAmount n _ => negb (Dec.is_zero n)
  end.

(** Booleans count as the numbers 0 and 1. *)
Definition as_number (v : PyVal) : option Dec.t :=
  match v with
  | PBool b => Some (Dec.of_Z (if b then 1 else 0))
  | PNum d => Some d
  | _ => None
  end.

(** [a == b] *)
Definition py_eqb (a b : PyVal) : bool :=
  match as_number a, as_number b with
  | Some x, Some y => Dec.eqb x y
  | _, _ =>
      match a, b with
      | PNone, PNone => true
      | PStr s, PStr s' => String.eqb s s'
      | PDate d, PDate d' => toordinal d =? toordinal d'
      | PAmount n c, PAmount n' c' => Dec.eqb n n' && bool_decide (c = c')
      | _, _ => false
      end
  end.

(** Strings order by code point. *)
Definition string_ltb (s s' : string) : bool :=
  match String.compare s s' with Lt => true | _ => false end.

(** [a < b]; [None] where Python raises TypeError.  An [Amount] orders by
    its sort key, the tuple (currency, number). *)
Definition py_lt (a b : PyVal) : option bool :=
  match as_number a, as_number b with
  | Some x, Some y => Some (Dec.ltb x y)
  | _, _ =>
      match a, b with
      | PStr s, PStr s' => Some (string_ltb s s')
      | PDate d, PDate d' => Some (toordinal d <? toordinal d')
      | PAmount n c, PAmount n' c' =>
          if bool_decide (c = c') then Some (Dec.ltb n n')
          else match c, c' with
               | Some s, Some s' => Some (string_ltb s s')
               | _, _ => None
               end
      | _, _ => None
      end
  end.

(** [v in s] for a set [s], kept as the list of values added to it: only
    membership of a set is ever observed. *)
Definition py_in (v : PyVal) (s : list PyVal) : bool :=
  existsb (py_eqb v) s.

(** A metadata dictionary, [dict.get(key)] being [m !! key]. *)
Abbreviation Meta := (gmap string PyVal).

(** ** beancount directives

    The named tuples of [beancount.core] that the sources build and read. *)

Record Amount : Type := mkAmount { number : Dec.t; currency : option string }.

Record Cost : Type :=
  mkCost { cost_number : Dec.t; cost_currency : string;
           cost_date : PyVal; cost_label : string }.

Record Posting : Type :=
  mkPosting { account : string;
              units : option Amount;
              cost : option Cost;
              price : option Amount;
              posting_meta : option Meta }.

Record Transaction : Type :=
  mkTransaction { txn_meta : option Meta;
                  txn_date : PyVal;
                  payee : string;
                  narration : PyVal;
                  postings : list Posting }.

Record Balance : Type :=
  mkBalance { bal_meta : option Meta;
              bal_date : date_t;
              bal_account : string;
              bal_amount : Amount }.

Record Open : Type :=
  mkOpen { open_meta : option Meta; open_account : string }.

Inductive Directive : Type :=
  | DTransaction (t : Transaction)
  | DBalance (b : Balance)
  | DOpen (o : Open).

(** [Amount.__neg__] and [Amount(-1 * number, currency)] *)
Definition amount_neg (a : Amount) : Amount :=
  mkAmount (Dec.neg (number a)) (currency a).

Definition amount_truthy (a : option Amount) : bool :=
  match a with
  | Some a => negb (Dec.is_zero (number a))
  | None => false
  end.

Definition amount_val (a : Amount) : PyVal := PAmount (number a) (currency a).

(** ** The staging collector *)

(** The provenance dictionary built by [get_info]. *)
Record Info : Type := mkInfo { info_type : string; filename : string; line : Z }.

(** Modelled from the spec: [ImportResult] is declared in
    [beancount_import/source/__init__.py]; it is the tuple
    [{date, provenance info, ordered list of entries}]. *)
Record ImportResult : Type :=
  mkImportResult { date_ : PyVal;
                   info : option Info;
                   entries : list Directive }.

(** Modelled from the spec: [SourceResults] is declared in
    [beancount_import/source/__init__.py]; the collector receives pending
    [ImportResult] values and the account names that should exist. *)
Record SourceResults : Type :=
  mkSourceResults { pending : list ImportResult; accounts : list PyVal }.

Definition add_pending_entry (r : ImportResult) (s : SourceResults) : SourceResults :=
  mkSourceResults (pending s ++ [r]) (accounts s).

Definition add_account (a : PyVal) (s : SourceResults) : SourceResults :=
  mkSourceResults (pending s)
    (if existsb (py_eqb a) (accounts s) then accounts s else accounts s ++ [a]).

(** An existing journal: its directives, and its [Open] directives by
    account name. *)
Record Journal : Type :=
  mkJournal { all_entries : list Directive; journal_accounts : list Open }.

(** The library functions the sources call on strings. *)
Class Runtime : Type :=
  { (** [datetime.datetime.strptime(s, '%Y-%m-%d').date()], [None] where it raises *)
    strptime : string → option date_t;
    (** [datetime.datetime.fromisoformat(s).date()], [None] where it raises *)
    fromisoformat : string → option date_t;
    (** [hashlib.md5(s.encode('utf-8')).hexdigest()] *)
    md5_hexdigest : string → string;
    (** [Decimal(s)] for a string with commas and blanks removed, [None]
        where it raises *)
    Decimal_of_str : string → option Dec.t;
    (** [str(v)] for a value that is not a string, [None] or a boolean *)
    str_other : PyVal → string }.

(** [str(v)], which is what ['%s' % v] renders. *)
Definition py_str `{Runtime} (v : PyVal) : string :=
  match v with
  | PStr s => s
  | PNone => "None"
  | PBool b => if b then "True" else "False"
  | _ => str_other v
  end.

(** beancount's [D]: [D(None)] and [D('')] are zero, a string is parsed, a
    [Decimal] is returned as it is and an [int] converted. *)
Definition D `{Runtime} (v : PyVal) : Res Dec.t :=
  match v with
  | PNone => Ok Dec.zero
  | PStr s =>
      if String.eqb s "" then Ok Dec.zero
      else match Decimal_of_str s with
           | Some d => Ok d
           | None => Raise ValueError
           end
  | PNum d => Ok d
  | PBool b => Ok (Dec.of_Z (if b then 1 else 0))
  | PDate _ | PAmount _ _ => Raise ValueError
  end.

(** [sub in s] for strings. *)
Fixpoint contains (sub s : string) : bool :=
  String.prefix sub s ||
  match s with
  | EmptyString => false
  | String _ s' => contains sub s'
  end.

(** [sep.join(l)] *)
Fixpoint join (sep : string) (l : list string) : string :=
  match l with
  | [] => ""
  | [x] => x
  | x :: l' => x +:+ sep +:+ join sep l'
  end.

(** ** [list.sort(key=...)]

    The sort is stable and uses [<] on the keys only.  A list of fewer than
    two elements is returned without any comparison.  Otherwise a
    comparison sort has to link every element to the others through the
    comparisons it makes, so it meets a pair that [<] rejects whenever there
    is one, and raises TypeError; on keys that all compare, the result of a
    stable sort does not depend on the algorithm, and insertion is used. *)

Section Sort.
Context {A : Type} (key : A → PyVal).

Definition key_lt (x y : A) : bool :=
  match py_lt (key x) (key y) with Some b => b | None => false end.

Definition comparable (l : list A) : bool :=
  forallb (fun x => forallb (fun y => bool_decide (is_Some (py_lt (key x) (key y)))) l) l.

(** [x] goes in front of the first element that is not below it. *)
Fixpoint insert_sorted (x : A) (l : list A) : list A :=
  match l with
  | [] => [x]
  | y :: l' => if key_lt y x then y :: insert_sorted x l' else x :: y :: l'
  end.

Fixpoint stable_sort (l : list A) : list A :=
  match l with
  | [] => []
  | x :: l' => insert_sorted x (stable_sort l')
  end.

Definition list_sort (l : list A) : Res (list A) :=
  if (length l <? 2)%nat then Ok l
  else if comparable l then Ok (stable_sort l)
  else Raise TypeError.
End Sort.

(** A decoded JSON object; [data.get(k)] is [None] for a missing key. *)
Abbreviation JObject := (gmap string PyVal).

Definition dict_get (data : JObject) (k : string) : PyVal :=
  default PNone (data !! k).

(** [meta.get(key)] on a metadata that may be [None] (AttributeError). *)
Definition meta_get (meta : option Meta) (k : string) : Res PyVal :=
  match meta with
  | Some m => Ok (default PNone (m !! k))
  | None => Raise AttributeError
  end.

(** The metadata of a posting built from the fields of an entry tuple:
    [meta[prefix + field] = value] for the fields that [keep] retains. *)
Definition make_meta (keep : PyVal → bool) (prefix : string)
    (fields : list (string * PyVal)) : Meta :=
  foldl (fun meta '(field, value) =>
           if keep value then <[prefix +:+ field := value]> meta else meta)
        ∅ fields.

Definition opt_date_val (d : option date_t) : PyVal :=
  match d with Some d => PDate d | None => PNone end.
Definition opt_amount_val (a : option Amount) : PyVal :=
  match a with Some a => amount_val a | None => PNone end.

(** ** [fifththird.py] *)

Module FifthThird.
Section WithRuntime.
Context `{Runtime}.

Record FifthThirdEntry : Type :=
  mkEntry { transaction_date : option date_t;
            posting_date : option date_t;
            transaction_id : PyVal;
            amount : option Amount;
            description : PyVal;
            credit_debit_type : PyVal;
            transaction_code : PyVal;
            principal_amount : option Amount;
            escrow_amount : option Amount;
            interest_amount : option Amount;
            other_amount : option Amount;
            status : PyVal;
            additional_info : PyVal;
            entry_filename : string;
            entry_line : Z }.

Definition date (val : PyVal) : Res (option date_t) :=
  if negb (truthy val) then Ok None
  else match val with
       | PStr s =>
           match strptime s with
           | Some d => Ok (Some d)
           | None => Raise (RuntimeError "Invalid date")
           end
       | _ => Raise (RuntimeError "Invalid date")
       end.

(** [str(val)] then [D]: a number is read through its decimal rendering
    (for a float the shortest digits that read back as the same float,
    which is what [PNum] holds), a string is parsed, and the rendering of
    anything else is not a number. *)
Definition D_str (val : PyVal) : Res Dec.t :=
  match val with
  | PNum d => Ok d
  | PStr s => D (PStr s)
  | _ => Raise ValueError
  end.

Definition amt (val : PyVal) : Res (option Amount) :=
  if negb (truthy val) then Ok None
  else
    d ← D_str val;
    r ← Dec.round d 2;
    Ok (Some (mkAmount r (Some "USD"))).

(** One line of the file: [None] for a line [json.loads] rejects. *)
Definition load_line (filename : string) (lno : Z) (line : option JObject)
  : Res FifthThirdEntry :=
  match line with
  | None => Raise JSONDecodeError
  | Some data =>
      transaction_date ← date (dict_get data "transactionDate");
      posting_date ← date (dict_get data "postDate");
      amount ← amt (dict_get data "amount");
      principal_amount ← amt (dict_get data "principalAmount");
      escrow_amount ← amt (dict_get data "escrowAmount");
      interest_amount ← amt (dict_get data "interestAmount");
      other_amount ← amt (dict_get data "otherAmount");
      Ok (mkEntry transaction_date posting_date (dict_get data "id") amount
            (dict_get data "description") (dict_get data "creditDebitType")
            (dict_get data "transactionCode") principal_amount escrow_amount
            interest_amount other_amount (dict_get data "status")
            (dict_get data "additionalInfo") filename lno)
  end.

(** [for line in f: lno += 1; entries.append(...)] *)
Fixpoint load_lines (filename : string) (lno : Z) (lines : list (option JObject))
  : Res (list FifthThirdEntry) :=
  match lines with
  | [] => Ok []
  | line :: rest =>
      e ← load_line filename (lno + 1) line;
      es ← load_lines filename (lno + 1) rest;
      Ok (e :: es)
  end.

Definition sort_key (x : FifthThirdEntry) : PyVal :=
  match posting_date x with Some d => PDate d | None => PNone end.

(** [filename] is the absolute path and [lines] the decoded lines of the
    file.  Any exception is raised again as RuntimeError. *)
Definition load_transactions (filename : string) (lines : list (option JObject))
  : Res (list FifthThirdEntry) :=
  match
    entries ← load_lines filename 0 lines;
    list_sort sort_key (reverse entries)
  with
  | Ok entries => Ok entries
  | Raise _ => Raise (RuntimeError "FifthThird JSON-L file has incorrect format")
  end.

Definition get_info (raw_entry : FifthThirdEntry) : Info :=
  mkInfo "application/json" (entry_filename raw_entry) (entry_line raw_entry).

(** [_asdict()] without [filename] and [line]. *)
Definition _asdict (e : FifthThirdEntry) : list (string * PyVal) :=
  [ ("transaction_date", opt_date_val (transaction_date e));
    ("posting_date", opt_date_val (posting_date e));
    ("transaction_id", transaction_id e);
    ("amount", opt_amount_val (amount e));
    ("description", description e);
    ("credit_debit_type", credit_debit_type e);
    ("transaction_code", transaction_code e);
    ("principal_amount", opt_amount_val (principal_amount e));
    ("escrow_amount", opt_amount_val (escrow_amount e));
    ("interest_amount", opt_amount_val (interest_amount e));
    ("other_amount", opt_amount_val (other_amount e));
    ("status", status e);
    ("additional_info", additional_info e) ].

(** [value is not None] *)
Definition keep_field (value : PyVal) : bool := negb (bool_decide (value = PNone)).

(** [-amount] on a field that may be [None]. *)
Definition neg_units (a : option Amount) : Res Amount :=
  match a with
  | Some a => Ok (amount_neg a)
  | None => Raise TypeError
  end.

Definition dst (acct : string) (a : option Amount) : list Posting :=
  if amount_truthy a then [mkPosting acct a None None None] else [].

Definition _make_import_result (fifththird_entry : FifthThirdEntry) : Res ImportResult :=
  let meta := make_meta keep_field "fifththird_" (_asdict fifththird_entry) in
  if py_eqb (transaction_code fifththird_entry) (PStr "9999") then
    (* balance assertion *)
    d ← match posting_date fifththird_entry with
         | Some d => Ok d
         | None => Raise TypeError
         end;
    bal_date ← date_add_days d 1;
    let entries :=
      (match principal_amount fifththird_entry with
       | Some a =>
           if amount_truthy (Some a)
           then [DBalance (mkBalance (Some meta) bal_date
                             "Liabilities:Mortgage:FifthThird"
                             (mkAmount (Dec.mul (Dec.of_Z (-1)) (number a)) (currency a)))]
           else []
       | None => []
       end) ++
      (match escrow_amount fifththird_entry with
       | Some a =>
           if amount_truthy (Some a)
           then [DBalance (mkBalance (Some meta) bal_date "Assets:FifthThird:Escrow" a)]
           else []
       | None => []
       end) in
    Ok (mkImportResult (PDate bal_date) (Some (get_info fifththird_entry)) entries)
  else if py_eqb (transaction_code fifththird_entry) (PStr "5850") then
    (* escrow withdraw, payment to third party *)
    src_units ← neg_units (amount fifththird_entry);
    let src_posting :=
      mkPosting "Assets:FifthThird:Escrow" (Some src_units) None None (Some meta) in
    descr ← match description fifththird_entry with
             | PStr s => Ok s
             | _ => Raise TypeError
             end;
    let '(payee, account) :=
      if contains "HAZ INS" descr
      then ("Escrow Payment - " +:+ "Homeowner's Insurance", "Expenses:House:Insurance")
      else if contains "TAXES" descr
      then ("Escrow Payment - " +:+ "Taxes", "Expenses:House:Taxes")
      else ("Escrow Payment - " +:+ descr, "Expenses:FIXME") in
    let dst_posting :=
      mkPosting account (escrow_amount fifththird_entry) None None None in
    let transaction :=
      mkTransaction None (opt_date_val (posting_date fifththird_entry)) payee
        (PStr descr) [src_posting; dst_posting] in
    Ok (mkImportResult (opt_date_val (posting_date fifththird_entry))
          (Some (get_info fifththird_entry)) [DTransaction transaction])
  else
    src_units ← neg_units (amount fifththird_entry);
    let src_posting :=
      mkPosting "Assets:FifthThird:Payment" (Some src_units) None None (Some meta) in
    let dst_postings :=
      dst "Liabilities:Mortgage:FifthThird" (principal_amount fifththird_entry) ++
      dst "Expenses:House:Mortgage:Interest" (interest_amount fifththird_entry) ++
      dst "Assets:FifthThird:Escrow" (escrow_amount fifththird_entry) ++
      dst "Expenses:House:Mortgage:Other" (other_amount fifththird_entry) in
    let transaction :=
      mkTransaction None (opt_date_val (posting_date fifththird_entry))
        "Fifth Third Mortgage" (description fifththird_entry)
        (src_posting :: dst_postings) in
    Ok (mkImportResult (opt_date_val (posting_date fifththird_entry))
          (Some (get_info fifththird_entry)) [DTransaction transaction]).

Fixpoint posting_ids (ps : list Posting) (ret : list PyVal) : Res (list PyVal) :=
  match ps with
  | [] => Ok ret
  | posting :: rest =>
      tid ← meta_get (posting_meta posting) "fifththird_transaction_id";
      posting_ids rest (if truthy tid then ret ++ [tid] else ret)
  end.

Fixpoint existing_ids (all_entries : list Directive) (ret : list PyVal)
  : Res (list PyVal) :=
  match all_entries with
  | [] => Ok ret
  | DTransaction entry :: rest =>
      tid ← meta_get (txn_meta entry) "fifththird_transaction_id";
      ret ← posting_ids (postings entry) (if truthy tid then ret ++ [tid] else ret);
      existing_ids rest ret
  | _ :: rest => existing_ids rest ret
  end.

Definition _get_existing_transaction_ids (all_entries : list Directive)
  : Res (list PyVal) :=
  existing_ids all_entries [].

(** The loop of [prepare]: the collector as it stands when the loop ends
    or raises. *)
Fixpoint prepare_loop (existing_tids : list PyVal) (entries : list FifthThirdEntry)
    (results : SourceResults) : SourceResults * Res () :=
  match entries with
  | [] => (results, Ok ())
  | entry :: rest =>
      if py_in (transaction_id entry) existing_tids
      then prepare_loop existing_tids rest results
      else match _make_import_result entry with
           | Ok result =>
               prepare_loop existing_tids rest (add_pending_entry result results)
           | Raise e => (results, Raise e)
           end
  end.

Definition prepare (entries : list FifthThirdEntry) (journal : Journal)
    (results : SourceResults) : SourceResults * Res () :=
  match _get_existing_transaction_ids (all_entries journal) with
  | Raise e => (results, Raise e)
  | Ok existing_tids =>
      match prepare_loop existing_tids entries results with
      | (results, Ok _) =>
          (add_account (PStr "Assets:FifthThird:Escrow")
             (add_account (PStr "Expenses:House:Mortgage:Interest")
                (add_account (PStr "Liabilities:Mortgage:FifthThird")
                   (add_account (PStr "Assets:FifthThird:Payment") results))),
           Ok ())
      | (results, Raise e) => (results, Raise e)
      end
  end.

End WithRuntime.
End FifthThird.

(** [s.endswith(suffix)] *)
Definition endswith (s suffix : string) : bool :=
  let n := String.length s in
  let m := String.length suffix in
  (m <=? n)%nat && String.eqb (String.substring (n - m) m s) suffix.

(** A dictionary in insertion order: [d[k] = v] replaces the value of a key
    already there and appends a new key at the end. *)
Fixpoint dict_set {V} (k : PyVal) (v : V) (d : list (PyVal * V)) : list (PyVal * V) :=
  match d with
  | [] => [(k, v)]
  | (k', v') :: d' =>
      if py_eqb k k' then (k', v) :: d' else (k', v') :: dict_set k v d'
  end.

Fixpoint dict_lookup {V} (k : PyVal) (d : list (PyVal * V)) : option V :=
  match d with
  | [] => None
  | (k', v) :: d' => if py_eqb k k' then Some v else dict_lookup k d'
  end.

(** ** [vanguard.py] *)

Module Vanguard.
Section WithRuntime.
Context `{Runtime}.

(** [VanguardEntry._fields] without [filename] and [line]. *)
Definition _fields : list string :=
  [ "CHKImageId"; "accountId"; "accountNumber"; "accountPositionID";
    "accountType"; "accruedInterest"; "assocBrkgAccountNumber";
    "assocExecutionPrice"; "assocInvestmentName"; "assocNetAmount";
    "assocRecordDate"; "assocTAAccountNumber"; "assocTxnFee";
    "assocTxnQuantity"; "assocVGITransactionID"; "assocVbaPrincipalAmount";
    "baseType"; "cancelFlag"; "chkNum"; "commission"; "cusip"; "description";
    "exchangeCd"; "fee"; "fundAccountNumber"; "grossAmount"; "investmentName";
    "investmentType"; "netAmount"; "price"; "principleAmount"; "processDate";
    "quantity"; "recordDate"; "securitySubTypeCd"; "securityTypeCd";
    "sequenceNumber"; "settlementDate"; "ticker"; "tradeDate";
    "transactionAmount"; "transactionCode"; "transactionType"; "txnAcctType";
    "vbaAssocAccountID"; "vbaAssocAccountPositionID" ].

(** The named tuple: the value of each field of [_fields] by name, and
    the provenance. *)
Record VanguardEntry : Type :=
  mkEntry { fields : JObject; entry_filename : string; entry_line : Z }.

Definition fld (e : VanguardEntry) (f : string) : PyVal := dict_get (fields e) f.

Definition date (val : PyVal) : Res (option date_t) :=
  if negb (truthy val) then Ok None
  else match val with
       | PStr s =>
           match strptime s with
           | Some d => Ok (Some d)
           | None => Raise (RuntimeError "Invalid date")
           end
       | _ => Raise (RuntimeError "Invalid date")
       end.

(** [D(str(val))]; the JSON numbers of this module are decoded as
    [Decimal], whose rendering reads back as the same [Decimal]. *)
Definition D_str (val : PyVal) : Res Dec.t :=
  match val with
  | PNum d => Ok d
  | PStr s => D (PStr s)
  | _ => Raise ValueError
  end.

Definition amt (val : PyVal) : Res (option Amount) :=
  if negb (truthy val) then Ok None
  else
    d ← D_str val;
    r ← Dec.round d 2;
    Ok (Some (mkAmount r (Some "USD"))).

(** One line: missing fields become [None], the fields whose name ends
    in [Date] are parsed, and the constructor of the tuple refuses a key
    that is not a field. *)
Definition load_line (filename : string) (lno : Z) (line : option JObject)
  : Res VanguardEntry :=
  match line with
  | None => Raise JSONDecodeError
  | Some data =>
      vals ← mapR (fun field =>
                     let v := dict_get data field in
                     if endswith field "Date"
                     then d ← date v; Ok (field, opt_date_val d)
                     else Ok (field, v))
                  _fields;
      if bool_decide (dom data ⊆ list_to_set (_fields ++ ["filename"; "line"]))
      then Ok (mkEntry (list_to_map vals) filename lno)
      else Raise TypeError
  end.

Fixpoint load_lines (filename : string) (lno : Z) (lines : list (option JObject))
  : Res (list VanguardEntry) :=
  match lines with
  | [] => Ok []
  | line :: rest =>
      e ← load_line filename (lno + 1) line;
      es ← load_lines filename (lno + 1) rest;
      Ok (e :: es)
  end.

Definition sort_key (x : VanguardEntry) : PyVal := fld x "sequenceNumber".

Definition load_transactions (filename : string) (lines : list (option JObject))
  : Res (list VanguardEntry) :=
  match
    entries ← load_lines filename 0 lines;
    list_sort sort_key (reverse entries)
  with
  | Ok entries => Ok entries
  | Raise _ => Raise (RuntimeError "Vanguard JSON-L file has incorrect format")
  end.

Definition get_info (raw_entry : VanguardEntry) : Info :=
  mkInfo "application/json" (entry_filename raw_entry) (entry_line raw_entry).

(** [value is not None and value != 0 and value != ""] *)
Definition keep_field (value : PyVal) : bool :=
  negb (bool_decide (value = PNone))
  && negb (py_eqb value (PNum (Dec.of_Z 0)))
  && negb (py_eqb value (PStr "")).

Definition _asdict (e : VanguardEntry) : list (string * PyVal) :=
  map (fun f => (f, fld e f)) _fields.

(** [Amount(number, currency)] asserts that the currency is a string or
    [None]. *)
Definition mk_amount (n : Dec.t) (cur : PyVal) : Res Amount :=
  match cur with
  | PStr s => Ok (mkAmount n (Some s))
  | PNone => Ok (mkAmount n None)
  | _ => Raise AssertionError
  end.

Definition code_in (code : PyVal) (l : list string) : bool :=
  existsb (fun c => py_eqb code (PStr c)) l.

Definition mapping (account_mappings : list (string * string)) (k : string)
  : Res string :=
  match list_find (fun kv => kv.1 = k) account_mappings with
  | Some (_, (_, v)) => Ok v
  | None => Raise KeyError
  end.

(** [D(netAmount) / D(quantity)] *)
Definition ratio (e : VanguardEntry) : Res Dec.t :=
  n ← D (fld e "netAmount");
  q ← D (fld e "quantity");
  Dec.div n q.

(** The local variables that the chain of transaction codes assigns. *)
Record Legs : Type :=
  mkLegs { src_account : string; dst_account : string;
           src_units : Amount; dst_units : Amount;
           dst_price : option Amount; dst_cost : option Cost;
           narration_ : string }.

(** Lines 192 to 195: the cost of the destination leg before the
    transaction code is looked at. *)
Definition initial_cost (vanguard_entry : VanguardEntry) : Res (option Cost) :=
  if truthy (fld vanguard_entry "price") then
    p ← D (fld vanguard_entry "price");
    Ok (Some (mkCost p "USD" (fld vanguard_entry "tradeDate") ""))
  else if negb (py_eqb (fld vanguard_entry "netAmount") (PNum (Dec.of_Z 0))) then
    match py_lt (PNum (Dec.of_Z 0)) (fld vanguard_entry "quantity") with
    | None => Raise TypeError
    | Some true =>
        c ← ratio vanguard_entry;
        Ok (Some (mkCost c "USD" (fld vanguard_entry "tradeDate") ""))
    | Some false => Ok None
    end
  else Ok None.

Definition by_code (vanguard_entry : VanguardEntry)
    (account_mappings : list (string * string))
    (cash_account vang_account : string) (l : Legs) : Res Legs :=
  let code := fld vanguard_entry "transactionCode" in
  let with_src a l :=
    mkLegs a (dst_account l) (src_units l) (dst_units l) (dst_price l) (dst_cost l)
      (narration_ l) in
  if code_in code ["5005"; "7066"; "7001"; "BUY"] then Ok (with_src cash_account l)
  else if code_in code ["9558"; "9555"] then Ok (with_src cash_account l)
  else if code_in code ["DTRF"] then
    if py_eqb (fld vanguard_entry "investmentName") (PStr "CASH") then
      p ← D (fld vanguard_entry "principleAmount");
      Ok (mkLegs "Expenses:FIXME" cash_account
            (mkAmount p (Some "USD"))
            (mkAmount (Dec.mul (Dec.of_Z (-1)) p) (Some "USD"))
            (dst_price l) (dst_cost l) (narration_ l))
    else
      q ← D (fld vanguard_entry "quantity");
      su ← mk_amount (Dec.neg q) (fld vanguard_entry "ticker");
      du ← mk_amount q (fld vanguard_entry "ticker");
      Ok (mkLegs "Expenses:FIXME" (dst_account l) su du
            (dst_price l) (dst_cost l) (narration_ l))
  else if code_in code ["WOFF"] then
    p ← D (fld vanguard_entry "principleAmount");
    Ok (mkLegs (src_account l) cash_account
          (mkAmount p (Some "USD"))
          (mkAmount (Dec.mul (Dec.of_Z (-1)) p) (Some "USD"))
          (dst_price l) (dst_cost l) (narration_ l))
  else if code_in code ["8037"] then
    a ← mapping account_mappings "Income:GainST"; Ok (with_src a l)
  else if code_in code ["8035"] then
    a ← mapping account_mappings "Income:GainLT"; Ok (with_src a l)
  else if code_in code ["5010"; "8015"; "8112"] then
    a ← mapping account_mappings "Income:Dividend"; Ok (with_src a l)
  else if code_in code ["ROLL"] then
    p ← D (fld vanguard_entry "principleAmount");
    Ok (mkLegs "Assets:Retirement:OldAccount" cash_account
          (mkAmount p (Some "USD"))
          (mkAmount (Dec.mul (Dec.of_Z (-1)) p) (Some "USD"))
          (dst_price l) (dst_cost l) (narration_ l))
  else if code_in code ["SCAP"; "LCAP"] then
    a ← mapping account_mappings "Income:GainST";
    p ← D (fld vanguard_entry "principleAmount");
    Ok (mkLegs "Expenses:FIXME" a (src_units l) (mkAmount p (Some "USD"))
          (dst_price l) None
          (if py_eqb code (PStr "LCAP") then "Gain (LT)" else "Gain (ST)"))
  else if code_in code ["RLCP"; "RSCP"] then
    Ok (mkLegs "Expenses:FIXME" vang_account (src_units l) (dst_units l)
          (dst_price l) (dst_cost l)
          (if py_eqb code (PStr "RLCP") then "Gain (LT)" else "Gain (ST)"))
  else if code_in code ["DIV"] then
    a ← mapping account_mappings "Income:Dividend";
    p ← D (fld vanguard_entry "principleAmount");
    Ok (mkLegs "Expenses:FIXME" a (src_units l) (mkAmount p (Some "USD"))
          (dst_price l) None "Dividend")
  else if code_in code ["RDIV"; "RDDV"] then
    Ok (mkLegs "Expenses:FIXME" vang_account (src_units l) (dst_units l)
          (dst_price l) (dst_cost l) "Dividend")
  else if code_in code ["CNVO"; "CNVI"] then
    p ← D (fld vanguard_entry "principleAmount");
    q ← D (fld vanguard_entry "quantity");
    du ← mk_amount q (fld vanguard_entry "ticker");
    c ← ratio vanguard_entry;
    if py_eqb code (PStr "CNVO") then
      Ok (mkLegs "Expenses:FIXME" vang_account
            (mkAmount (Dec.mul (Dec.of_Z (-1)) p) (Some "USD")) du
            (Some (mkAmount c (Some "USD"))) None (narration_ l))
    else
      Ok (mkLegs "Expenses:FIXME" vang_account
            (mkAmount (Dec.mul (Dec.of_Z (-1)) p) (Some "USD")) du
            None (Some (mkCost c "USD" (fld vanguard_entry "tradeDate") ""))
            (narration_ l))
  else if code_in code ["SELE"] then
    p ← D (fld vanguard_entry "price");
    Ok (mkLegs "Expenses:FIXME" vang_account (src_units l) (dst_units l)
          (Some (mkAmount p (Some "USD"))) None (narration_ l))
  else Ok l.

Definition _make_import_result (vanguard_entry : VanguardEntry)
    (vanguard_accounts : list (PyVal * string))
    (account_mappings : list (string * string)) : Res ImportResult :=
  let meta := make_meta keep_field "vanguard_" (_asdict vanguard_entry) in
  match dict_lookup (fld vanguard_entry "accountId") vanguard_accounts with
  | None =>
      Raise (RuntimeError "No existing account in the journal has a meta vanguard_account_id")
  | Some acct =>
      let cash_account := acct +:+ ":" +:+ "Cash" in
      let vang_account := acct +:+ ":" +:+ py_str (fld vanguard_entry "ticker") in
      p ← D (fld vanguard_entry "principleAmount");
      q ← D (fld vanguard_entry "quantity");
      du ← mk_amount q (fld vanguard_entry "ticker");
      c ← initial_cost vanguard_entry;
      let narration :=
        py_str (fld vanguard_entry "transactionType") +:+ " - " +:+
        py_str (fld vanguard_entry "ticker") +:+ " - " +:+
        py_str (fld vanguard_entry "investmentName") in
      l ← by_code vanguard_entry account_mappings cash_account vang_account
            (mkLegs "Expenses:FIXME" vang_account
               (mkAmount (Dec.mul (Dec.of_Z (-1)) p) (Some "USD")) du None c narration);
      let src_posting := mkPosting (src_account l) (Some (src_units l)) None None None in
      let dst_postings :=
        [mkPosting (dst_account l) (Some (dst_units l)) (dst_cost l) (dst_price l)
           (Some meta)] in
      let transaction :=
        mkTransaction None (fld vanguard_entry "recordDate") "Vanguard"
          (PStr (narration_ l)) (src_posting :: dst_postings) in
      Ok (mkImportResult (fld vanguard_entry "recordDate")
            (Some (get_info vanguard_entry)) [DTransaction transaction])
  end.

Fixpoint posting_ids (ps : list Posting) (ret : list PyVal) : Res (list PyVal) :=
  match ps with
  | [] => Ok ret
  | posting :: rest =>
      tid ← meta_get (posting_meta posting) "vanguard_sequenceNumber";
      posting_ids rest (if truthy tid then ret ++ [tid] else ret)
  end.

Fixpoint existing_ids (all_entries : list Directive) (ret : list PyVal)
  : Res (list PyVal) :=
  match all_entries with
  | [] => Ok ret
  | DTransaction entry :: rest =>
      tid ← meta_get (txn_meta entry) "vanguard_sequenceNumber";
      ret ← posting_ids (postings entry) (if truthy tid then ret ++ [tid] else ret);
      existing_ids rest ret
  | _ :: rest => existing_ids rest ret
  end.

Definition _get_existing_transaction_ids (all_entries : list Directive)
  : Res (list PyVal) :=
  existing_ids all_entries [].

Fixpoint find_accounts (opens : list Open) (accounts : list (PyVal * string))
  : list (PyVal * string) :=
  match opens with
  | [] => accounts
  | entry :: rest =>
      match open_meta entry with
      | Some meta =>
          match meta !! "vanguard_account_id" with
          | Some id => find_accounts rest (dict_set id (open_account entry) accounts)
          | None => find_accounts rest accounts
          end
      | None => find_accounts rest accounts
      end
  end.

Definition find_vanguard_accounts (journal : Journal) : list (PyVal * string) :=
  find_accounts (journal_accounts journal) [].

Fixpoint prepare_loop (existing_tids : list PyVal)
    (vanguard_accounts : list (PyVal * string))
    (account_mappings : list (string * string))
    (entries : list VanguardEntry)
    (results : SourceResults) : SourceResults * Res () :=
  match entries with
  | [] => (results, Ok ())
  | entry :: rest =>
      if py_in (fld entry "sequenceNumber") existing_tids
      then prepare_loop existing_tids vanguard_accounts account_mappings rest results
      else match _make_import_result entry vanguard_accounts account_mappings with
           | Ok result =>
               prepare_loop existing_tids vanguard_accounts account_mappings rest
                 (add_pending_entry result results)
           | Raise e => (results, Raise e)
           end
  end.

Definition prepare (entries : list VanguardEntry)
    (account_mappings : list (string * string)) (journal : Journal)
    (results : SourceResults) : SourceResults * Res () :=
  match _get_existing_transaction_ids (all_entries journal) with
  | Raise e => (results, Raise e)
  | Ok existing_tids =>
      let vanguard_accounts := find_vanguard_accounts journal in
      match prepare_loop existing_tids vanguard_accounts account_mappings
              entries results with
      | (results, Ok _) =>
          let results :=
            foldl (fun r kv => add_account (PStr kv.2) r) results account_mappings in
          (foldl (fun r kv => add_account kv.1 r) results vanguard_accounts, Ok ())
      | (results, Raise e) => (results, Raise e)
      end
  end.

End WithRuntime.
End Vanguard.

(** ** [wegmans.py]

    An order is a nested JSON document.  Its shape is taken as the module
    expects it (which values are objects and which are arrays); any key may
    be missing ([None] below, KeyError on [d[k]]) and a scalar may be of any
    scalar type.  Numbers are decoded as [Decimal]. *)

Module Wegmans.

Record Category : Type := mkCategory { cat_name : option PyVal }.

Record StoreProduct : Type :=
  mkStoreProduct { product_name : option PyVal;
                   brand_name : option PyVal;
                   base_price : option PyVal;
                   categories : option (list Category) }.

(** [child_order_item] is [None] for a missing key and for [null]. *)
#[warnings="-register-all"]
Inductive Item : Type :=
  mkItem { item_status : option PyVal;
           child_order_item : option Item;
           sub_total : option PyVal;
           store_product : option StoreProduct;
           actual_quantity : option PyVal;
           quantity : option PyVal }.

Record FinalTotals : Type :=
  mkFinalTotals { tax_total : option PyVal;
                  tip_total : option PyVal;
                  refund_total : option PyVal;
                  pre_discount_product_total : option PyVal;
                  product_total : option PyVal;
                  total : option PyVal }.

Record Store : Type := mkStore { store_name : option PyVal }.

Record PaymentInstrument : Type :=
  mkPaymentInstrument { last_four_digits : option PyVal }.

Record Order : Type :=
  mkOrder { id : option PyVal;
            timestamp : option PyVal;
            fulfillment_date : option PyVal;
            store : option Store;
            payment_instruments : option (list PaymentInstrument);
            final_totals : option FinalTotals;
            items : option (list Item);
            order_items : option (list Item);
            status : option PyVal;
            order_filename : string }.

Section WithRuntime.
Context `{Runtime}.

(** [d[k]] *)
Definition req {A} (v : option A) : Res A :=
  match v with Some a => Ok a | None => Raise KeyError end.

(** [d.get(k, default)] *)
Definition get_or (v : option PyVal) (dflt : PyVal) : PyVal := default dflt v.

(** The right operand of [Decimal + x]: a [Decimal], or a boolean as the
    integer it is. *)
Definition operand (v : PyVal) : Res Dec.t :=
  match as_number v with Some d => Ok d | None => Raise TypeError end.

(** The number of [Amount(-1 * v, 'USD')] or [Amount(v, 'USD')] where the
    [Amount] then takes part in [Decimal] arithmetic: the constructor
    asserts a [Decimal] (or [None], which the arithmetic refuses). *)
Definition decimal_of (v : PyVal) : Res Dec.t :=
  match v with
  | PNum d => Ok d
  | PNone => Raise TypeError
  | _ => Raise AssertionError
  end.

(** [", ".join(l)]: every element has to be a string. *)
Definition join_names (l : list PyVal) : Res string :=
  strs ← mapR (fun v => match v with PStr s => Ok s | _ => Raise TypeError end) l;
  Ok (join ", " strs).

Definition category_names (cats : list Category) : Res string :=
  names ← mapR (fun c => req (cat_name c)) cats;
  join_names names.

(** Modelled from the spec: the directory is enumerated outside this
    module; each [.json] file is given by its absolute name and its
    decoded document, [None] for a file [json.load] rejects. *)
Definition load_transactions (dir : list (string * option Order)) : Res (list Order) :=
  match
    mapR (fun '(filename, data) =>
            match data with
            | Some data =>
                Ok (mkOrder (id data) (timestamp data) (fulfillment_date data)
                      (store data) (payment_instruments data) (final_totals data)
                      (items data) (order_items data) (status data) filename)
            | None => Raise JSONDecodeError
            end)
         (filter (fun '(filename, _) => endswith filename ".json") dir)
  with
  | Ok entries => Ok entries
  | Raise _ => Raise (RuntimeError "Wegmans JSON file has incorrect format")
  end.

Definition is_removed (item : Item) : bool :=
  match item_status item with
  | Some s => py_eqb s (PStr "removed")
  | None => false
  end.

Definition cathash_of (item : Item) : Res string :=
  sp ← req (store_product item);
  name ← req (product_name sp);
  kombucha ← match name with
             | PStr s => Ok (contains "Kombucha" s)
             | _ => Raise TypeError
             end;
  if kombucha : bool then Ok "Kombucha"
  else
    cats ← req (categories sp);
    all_categories ← category_names (take 2 cats);
    Ok (md5_hexdigest all_categories).

(** [grouped[cathash].append(item)] on a [defaultdict(list)], keys in
    insertion order. *)
Fixpoint group_append (cathash : string) (item : Item)
    (grouped : list (string * list Item)) : list (string * list Item) :=
  match grouped with
  | [] => [(cathash, [item])]
  | (k, l) :: rest =>
      if String.eqb k cathash then (k, l ++ [item]) :: rest
      else (k, l) :: group_append cathash item rest
  end.

(** The first loop over the items. *)
Fixpoint items_loop (its : list Item) (item_total : Dec.t)
    (grouped : list (string * list Item))
  : Res (Dec.t * list (string * list Item)) :=
  match its with
  | [] => Ok (item_total, grouped)
  | item :: rest =>
      let step (item : Item) :=
        st ← req (sub_total item);
        n ← operand st;
        cathash ← cathash_of item;
        items_loop rest (Dec.add item_total n) (group_append cathash item grouped) in
      if is_removed item then
        match child_order_item item with
        | Some child => step child
        | None => items_loop rest item_total grouped   (* no replacement *)
        end
      else step item
  end.

(** ['%02d' % i] *)
Definition two_digits (i : nat) : string :=
  if (i <? 10)%nat then "0" +:+ pretty i else pretty i.

(** The second loop, over the items of one category: the total and the
    metadata of its posting. *)
Fixpoint category_loop (its : list Item) (i : nat) (cat_total : Dec.t)
    (item_meta : Meta) : Res (Dec.t * Meta) :=
  match its with
  | [] => Ok (cat_total, item_meta)
  | item :: rest =>
      st ← req (sub_total item);
      n ← operand st;
      let cat_total := Dec.add cat_total n in
      sp ← req (store_product item);
      item_meta ←
        (if (i =? 0)%nat then
           cats ← req (categories sp);
           top_categories ← category_names (take 2 cats);
           Ok (<["wegmans_category" := PStr top_categories]> item_meta)
         else Ok item_meta);
      cats ← req (categories sp);
      all_categories ← category_names cats;
      brand ← req (brand_name sp);
      name ← req (product_name sp);
      let qty := match actual_quantity item with
                 | Some q => q
                 | None => get_or (quantity item) PNone
                 end in
      base ← req (base_price sp);
      let text :=
        all_categories +:+ ": " +:+ py_str brand +:+ " / " +:+ py_str name +:+
        " | " +:+ py_str qty +:+ " @ " +:+ py_str base +:+ " = " +:+ py_str st in
      category_loop rest (S i) cat_total
        (<["wegmans_item_" +:+ two_digits i +:+ "_product_name" := PStr text]> item_meta)
  end.

Definition category_posting (g : string * list Item) : Res Posting :=
  '(cat_total, item_meta) ← category_loop g.2 0 (Dec.of_Z 0) ∅;
  Ok (mkPosting ("Expenses:FIXME:" +:+ g.1)
        (Some (mkAmount cat_total (Some "USD"))) None None (Some item_meta)).

(** [if (charge_total) != (item_total+tax_total): postings.append(...)] *)
Definition discrepancy_posting (charge_total item_total tax_total : Dec.t)
  : list Posting :=
  if negb (Dec.eqb charge_total (Dec.add item_total tax_total)) then
    [mkPosting "Expenses:Food:Groceries"
       (Some (mkAmount (Dec.sub charge_total (Dec.add item_total tax_total))
                (Some "USD")))
       None None (Some (<["wegmans_comment" := PStr "Unknown discrepancy"]> ∅))]
  else [].

Definition _make_import_result (wegmans_entry : Order) : Res ImportResult :=
  order_id ← req (id wegmans_entry);
  ts ← req (timestamp wegmans_entry);
  st ← req (store wegmans_entry);
  store_nm ← req (store_name st);
  let meta : Meta :=
    <["wegmans_store" := store_nm]>
      (<["wegmans_fulfillment_date" := get_or (fulfillment_date wegmans_entry) PNone]>
         (<["wegmans_timestamp" := ts]> (<["wegmans_order_id" := order_id]> ∅))) in
  charge_meta ←
    match payment_instruments wegmans_entry with
    | Some ps =>
        digits ← mapR (fun p => req (last_four_digits p)) ps;
        s ← join_names digits;
        Ok (<["wegmans_last_four" := PStr s]> (∅ : Meta))
    | None => Ok ∅
    end;
  ft ← req (final_totals wegmans_entry);
  let zero := PNum (Dec.of_Z 0) in
  let charge_meta : Meta :=
    <["wegmans_total" := get_or (total ft) zero]>
      (<["wegmans_product_total" := get_or (product_total ft) zero]>
         (<["wegmans_pre_discount_product_total" :=
              get_or (pre_discount_product_total ft) zero]>
            (<["wegmans_refund" := get_or (refund_total ft) zero]>
               (<["wegmans_tip" := get_or (tip_total ft) zero]>
                  (<["wegmans_sales_tax" := get_or (tax_total ft) zero]> charge_meta))))) in
  its ← match items wegmans_entry with
        | Some l => Ok l
        | None =>
            match order_items wegmans_entry with
            | Some l => Ok l
            | None => Raise TypeError
            end
        end;
  '(item_total, grouped) ← items_loop its (Dec.of_Z 0) [];
  charge_v ← req (total ft);
  charge_total ← decimal_of charge_v;
  let charge :=
    mkPosting "Expenses:FIXME:Charge"
      (Some (mkAmount (Dec.mul (Dec.of_Z (-1)) charge_total) (Some "USD")))
      None None (Some charge_meta) in
  let tax_v := get_or (tax_total ft) zero in
  tax_total ← decimal_of tax_v;
  let tax :=
    mkPosting "Expenses:FIXME:Tax" (Some (mkAmount tax_total (Some "USD")))
      None None (Some (<["wegmans_sales_tax" := tax_v]> ∅)) in
  let discrepancy := discrepancy_posting charge_total item_total tax_total in
  by_category ← mapR category_posting grouped;
  d ← match ts with
      | PStr s =>
          match fromisoformat s with
          | Some d => Ok d
          | None => Raise ValueError
          end
      | _ => Raise TypeError
      end;
  let transaction :=
    mkTransaction (Some meta) (PDate d) "Wegmans" PNone
      ([charge; tax] ++ discrepancy ++ by_category) in
  Ok (mkImportResult (PDate d) None [DTransaction transaction]).

Fixpoint posting_ids (ps : list Posting) (ret : list PyVal) : Res (list PyVal) :=
  match ps with
  | [] => Ok ret
  | posting :: rest =>
      tid ← meta_get (posting_meta posting) "wegmans_order_id";
      posting_ids rest (if truthy tid then ret ++ [tid] else ret)
  end.

Fixpoint existing_ids (all_entries : list Directive) (ret : list PyVal)
  : Res (list PyVal) :=
  match all_entries with
  | [] => Ok ret
  | DTransaction entry :: rest =>
      tid ← meta_get (txn_meta entry) "wegmans_order_id";
      ret ← posting_ids (postings entry) (if truthy tid then ret ++ [tid] else ret);
      existing_ids rest ret
  | _ :: rest => existing_ids rest ret
  end.

Definition _get_existing_transaction_ids (all_entries : list Directive)
  : Res (list PyVal) :=
  existing_ids all_entries [].

Definition is_cancelled (entry : Order) : bool :=
  py_eqb (get_or (status entry) PNone) (PStr "cancelled").

Fixpoint prepare_loop (existing_tids : list PyVal) (entries : list Order)
    (results : SourceResults) : SourceResults * Res () :=
  match entries with
  | [] => (results, Ok ())
  | entry :: rest =>
      if is_cancelled entry then prepare_loop existing_tids rest results
      else
        match id entry with
        | None => (results, Raise KeyError)
        | Some order_id =>
            if py_in order_id existing_tids
            then prepare_loop existing_tids rest results
            else match _make_import_result entry with
                 | Ok result =>
                     prepare_loop existing_tids rest (add_pending_entry result results)
                 | Raise e => (results, Raise e)
                 end
        end
  end.

(** [new_tids] reads [e['id']] of every entry before anything else. *)
Definition prepare (entries : list Order) (journal : Journal)
    (results : SourceResults) : SourceResults * Res () :=
  if existsb (fun e => bool_decide (id e = None)) entries
  then (results, Raise KeyError)
  else
    match _get_existing_transaction_ids (all_entries journal) with
    | Raise e => (results, Raise e)
    | Ok existing_tids =>
        match prepare_loop existing_tids entries results with
        | (results, Ok _) => (add_account (PStr "Liabilities:Wegmans") results, Ok ())
        | (results, Raise e) => (results, Raise e)
        end
    end.

End WithRuntime.
End Wegmans.

(** ** A reference runtime

    The library functions are parameters of the development.  The instance
    below instantiates them on concrete records: dates are read in the
    zero-padded form [YYYY-MM-DD] and turned into ordinals the way
    [datetime] does; the digest is a stand-in that keeps its input, and no
    string is read as a number. *)

Module Calendar.

Definition is_leap (year : Z) : bool :=
  (year mod 4 =? 0) && (negb (year mod 100 =? 0) || (year mod 400 =? 0)).

Definition days_before_year (year : Z) : Z :=
  let y := year - 1 in y * 365 + y / 4 - y / 100 + y / 400.

Definition days_in_month (year month : Z) : Z :=
  if month =? 2 then (if is_leap year then 29 else 28)
  else if (month =? 4) || (month =? 6) || (month =? 9) || (month =? 11) then 30
  else 31.

Definition days_before_month (year month : Z) : Z :=
  foldr (fun m acc => days_in_month year m + acc) 0
    (seqZ 1 (month - 1)).

Definition ymd2ord (year month day : Z) : option date_t :=
  if (1 <=? year) && (year <=? 9999) && (1 <=? month) && (month <=? 12)
     && (1 <=? day) && (day <=? days_in_month year month)
  then Some (Date (days_before_year year + days_before_month year month + day))
  else None.

Definition digit (c : Ascii.ascii) : option Z :=
  let n := Z.of_nat (Ascii.nat_of_ascii c) in
  if (48 <=? n) && (n <=? 57) then Some (n - 48) else None.

Definition number (cs : list Ascii.ascii) : option Z :=
  foldl (fun acc c => a ← acc; d ← digit c; Some (10 * a + d)) (Some 0) cs.

Definition dash : Ascii.ascii := Ascii.ascii_of_nat 45.

(** The date at the head of [s] and what follows it. *)
Definition read_date (s : string) : option (date_t * string) :=
  match s with
  | String y1 (String y2 (String y3 (String y4 (String s1 (String m1
      (String m2 (String s2 (String d1 (String d2 rest))))))))) =>
      guard (s1 = dash ∧ s2 = dash);;
      y ← number [y1; y2; y3; y4];
      m ← number [m1; m2];
      d ← number [d1; d2];
      o ← ymd2ord y m d;
      Some (o, rest)
  | _ => None
  end.

Definition reference_runtime : Runtime :=
  {| strptime s :=
       match read_date s with
       | Some (d, "") => Some d
       | _ => None
       end;
     fromisoformat s := fst <$> read_date s;
     md5_hexdigest s := s;
     Decimal_of_str _ := None;
     str_other _ := "" |}.

End Calendar.

(** ** Notions used to state the properties *)

(** [r] is [d] rounded to a multiple of [10 ^ e]: the nearest one, and of
    two nearest ones the one with the even coefficient.  Both numbers are
    measured in units of [10 ^ s], [s] the smaller exponent. *)
Definition rounds_half_even (d r : Dec.t) (e : Z) : Prop :=
  Dec.exp r = e ∧
  let s := Z.min (Dec.exp d) e in
  let x := Dec.coef d * 10 ^ (Dec.exp d - s) in
  let y := Dec.coef r * 10 ^ (e - s) in
  2 * Z.abs (x - y) ≤ 10 ^ (e - s) ∧
  (2 * Z.abs (x - y) = 10 ^ (e - s) → Z.even (Dec.coef r) = true).

(** The value of [d] in units of [10 ^ s], for [s] at most its exponent. *)
Definition scaled (d : Dec.t) (s : Z) : Z := Dec.coef d * 10 ^ (Dec.exp d - s).

(** Ascending order of the sort keys: [b] is not below [a]. *)
Definition key_le {A} (key : A → PyVal) (a b : A) : Prop := key_lt key b a = false.

(** The two records of the documentation of [fifththird.py], as decoded
    lines of [transactions.jsonl]. *)
Definition fifththird_sample : list (option JObject) :=
  [ Some (list_to_map
            [ ("id", PStr "UUID1"); ("transactionDate", PStr "2020-08-01");
              ("postDate", PStr "2020-08-27"); ("amount", PNum (Dec.mk 1230 (-1)));
              ("description", PStr "ESC DISB - CUSTOMER");
              ("creditDebitType", PStr "C"); ("status", PStr "POSTED");
              ("transactionCode", PStr "5850"); ("imageAvailable", PBool false);
              ("escrowAmount", PNum (Dec.mk 1230 (-1))) ]);
    Some (list_to_map
            [ ("id", PStr "UUID2"); ("transactionDate", PStr "2020-08-01");
              ("postDate", PStr "2020-08-27"); ("description", PStr "BALANCE AFTER");
              ("creditDebitType", PStr "B"); ("status", PStr "POSTED");
              ("transactionCode", PStr "9999"); ("imageAvailable", PBool false) ]) ].

(** A statement record of 2020-08-27 with a principal and an escrow
    balance. *)
Definition fifththird_statement : FifthThird.FifthThirdEntry :=
  FifthThird.mkEntry (Some (Date 737638)) (Some (Date 737664)) (PStr "UUID2") None
    (PStr "BALANCE AFTER") (PStr "B") (PStr "9999")
    (Some (mkAmount (Dec.mk 25000000 (-2)) (Some "USD")))
    (Some (mkAmount (Dec.mk 123000 (-2)) (Some "USD")))
    None None (PStr "POSTED") PNone "transactions.jsonl" 2.

(** A directive that is a balance assertion dated [d]. *)
Definition is_balance_on (d : date_t) (x : Directive) : Prop :=
  match x with
  | DBalance b => bal_date b = d
  | _ => False
  end.

(** The loop that the three [prepare] methods share: an entry is skipped
    or turned into a pending result, until one raises. *)
Section ImportLoop.
Context {E : Type} (skip : E → bool) (make : E → Res ImportResult).

Fixpoint import_loop (entries : list E) (results : SourceResults)
  : SourceResults * Res () :=
  match entries with
  | [] => (results, Ok ())
  | entry :: rest =>
      if skip entry then import_loop rest results
      else match make entry with
           | Ok result => import_loop rest (add_pending_entry result results)
           | Raise e => (results, Raise e)
           end
  end.
End ImportLoop.

(** The external key of an entry is in the set collected from the ledger. *)
Definition key_present {E} (key : E → option PyVal) (existing : list PyVal) (e : E)
  : bool :=
  match key e with
  | Some k => py_in k existing
  | None => false
  end.

(** De-duplication by external key, for a source with entries [E]: with
    [existing] the keys collected from the ledger,
    - an entry whose key is in [existing] can be taken out of the loaded
      entries without any change to what [prepare] does, and
    - when [prepare] returns, the pending results it added are the results
      of the entries whose key is not in [existing] (and that the source
      does not set aside for another reason, [set_aside]), one for each, in
      order. *)
Definition dedup_spec {E} (key : E → option PyVal) (set_aside : E → bool)
    (make : Journal → E → Res ImportResult)
    (get_existing : list Directive → Res (list PyVal))
    (prepare : list E → Journal → SourceResults → SourceResults * Res ()) : Prop :=
  ∀ journal existing,
    get_existing (all_entries journal) = Ok existing →
    (∀ l1 e l2 results,
       key_present key existing e = true →
       prepare (l1 ++ e :: l2) journal results = prepare (l1 ++ l2) journal results) ∧
    (∀ entries results results',
       prepare entries journal results = (results', Ok ()) →
       ∃ rs,
         pending results' = pending results ++ rs ∧
         Forall2 (fun e r => make journal e = Ok r)
           (List.filter (fun e => negb (key_present key existing e) && negb (set_aside e))
              entries)
           rs).

(** The orders that the loop of [WegmansSource.prepare] passes over. *)
Definition wegmans_skip (ex : list PyVal) (e : Wegmans.Order) : bool :=
  Wegmans.is_cancelled e || key_present Wegmans.id ex e.

(** A ledger in which the first record of the documentation has been
    imported: one transaction whose posting carries its metadata. *)
Definition ledger_with (id : PyVal) : Journal :=
  mkJournal
    [ DTransaction
        (mkTransaction (Some ∅) (PDate (Date 737664)) "Escrow Payment" PNone
           [ mkPosting "Assets:FifthThird:Escrow" None None None
               (Some {[ "fifththird_transaction_id" := id ]}) ]) ]
    [].

(** Sample grocery items and orders. *)
Definition grocery (name cat : string) (st : Dec.t) : Wegmans.Item :=
  Wegmans.mkItem None None (Some (PNum st))
    (Some (Wegmans.mkStoreProduct (Some (PStr name)) (Some (PStr "Wegmans"))
             (Some (PNum st)) (Some [Wegmans.mkCategory (Some (PStr cat))])))
    None (Some (PNum (Dec.of_Z 1))).

Definition removed (child : option Wegmans.Item) (it : Wegmans.Item) : Wegmans.Item :=
  Wegmans.mkItem (Some (PStr "removed")) child (Wegmans.sub_total it)
    (Wegmans.store_product it) (Wegmans.actual_quantity it) (Wegmans.quantity it).

Definition grocery_order (status : option PyVal) (total : Dec.t)
    (its : list Wegmans.Item) : Wegmans.Order :=
  Wegmans.mkOrder (Some (PStr "order-1")) (Some (PStr "2021-03-04T10:11:12")) None
    (Some (Wegmans.mkStore (Some (PStr "Pittsford")))) None
    (Some (Wegmans.mkFinalTotals (Some (PNum (Dec.mk 800 (-2)))) None None None None
             (Some (PNum total))))
    (Some its) None status "order-1.json".

Definition two_items : list Wegmans.Item :=
  [ grocery "Bread" "Bakery" (Dec.mk 5000 (-2));
    grocery "Kombucha, Ginger" "Dairy" (Dec.mk 4200 (-2)) ].

Definition empty_results : SourceResults := mkSourceResults [] [].

(** The items of an order that count: an item is replaced by its
    replacement when it was removed, and left out when it was removed
    without one. *)
Definition counted (its : list Wegmans.Item) : list Wegmans.Item :=
  flat_map (fun item =>
              if Wegmans.is_removed item then
                match Wegmans.child_order_item item with
                | Some child => [child]
                | None => []
                end
              else [item]) its.

(** The accumulation of sub-totals and the assignment to buckets, for
    items that all count. *)
Fixpoint plain_loop `{Runtime} (its : list Wegmans.Item) (item_total : Dec.t)
    (grouped : list (string * list Wegmans.Item))
  : Res (Dec.t * list (string * list Wegmans.Item)) :=
  match its with
  | [] => Ok (item_total, grouped)
  | item :: rest =>
      st ← Wegmans.req (Wegmans.sub_total item);
      n ← Wegmans.operand st;
      cathash ← Wegmans.cathash_of item;
      plain_loop rest (Dec.add item_total n) (Wegmans.group_append cathash item grouped)
  end.

(** The sub-totals of a list of items, as numbers. *)
Definition sub_totals (its : list Wegmans.Item) : Res (list Dec.t) :=
  mapR (fun item => st ← Wegmans.req (Wegmans.sub_total item); Wegmans.operand st) its.

(** The sum of a list of numbers, from zero, in [Decimal] arithmetic. *)
Definition dec_sum (ns : list Dec.t) : Dec.t := foldl Dec.add (Dec.of_Z 0) ns.

(** The order [o] with the list of items [its] under the key it uses. *)
Definition set_items (o : Wegmans.Order) (its : list Wegmans.Item) : Wegmans.Order :=
  match Wegmans.items o with
  | Some _ =>
      Wegmans.mkOrder (Wegmans.id o) (Wegmans.timestamp o) (Wegmans.fulfillment_date o)
        (Wegmans.store o) (Wegmans.payment_instruments o) (Wegmans.final_totals o)
        (Some its) (Wegmans.order_items o) (Wegmans.status o) (Wegmans.order_filename o)
  | None =>
      Wegmans.mkOrder (Wegmans.id o) (Wegmans.timestamp o) (Wegmans.fulfillment_date o)
        (Wegmans.store o) (Wegmans.payment_instruments o) (Wegmans.final_totals o)
        None (Some its) (Wegmans.status o) (Wegmans.order_filename o)
  end.

(** The postings to the account of the discrepancy. *)
Definition discrepancies (t : Transaction) : list Posting :=
  List.filter (fun p => String.eqb (account p) "Expenses:Food:Groceries") (postings t).

(** An escrow disbursement (transaction code "5850") whose record has no
    [escrowAmount]. *)
Definition disbursement_without_escrow : FifthThird.FifthThirdEntry :=
  FifthThird.mkEntry (Some (Date 737638)) (Some (Date 737664)) (PStr "UUID1")
    (Some (mkAmount (Dec.mk 12300 (-2)) (Some "USD")))
    (PStr "ESC DISB - CUSTOMER") (PStr "C") (PStr "5850")
    None None None None (PStr "POSTED") PNone "transactions.jsonl" 1.

(** A loan payment split into principal, interest and escrow. *)
Definition loan_payment : FifthThird.FifthThirdEntry :=
  FifthThird.mkEntry (Some (Date 737638)) (Some (Date 737664)) (PStr "UUID5")
    (Some (mkAmount (Dec.mk 150000 (-2)) (Some "USD")))
    (PStr "PAYMENT") (PStr "D") (PStr "1100")
    (Some (mkAmount (Dec.mk 60000 (-2)) (Some "USD")))
    (Some (mkAmount (Dec.mk 40000 (-2)) (Some "USD")))
    (Some (mkAmount (Dec.mk 50000 (-2)) (Some "USD")))
    None (PStr "POSTED") PNone "transactions.jsonl" 3.

(** The postings of a transaction to one account. *)
Definition postings_to (acct : string) (t : Transaction) : list Posting :=
  List.filter (fun p => String.eqb (account p) acct) (postings t).

(** The posting that the split of a payment makes for a component: none
    unless the amount is there and is not zero. *)
Definition component_posting (acct : string) (a : option Amount) : list Posting :=
  if amount_truthy a then [mkPosting acct a None None None] else [].

(** The escrow disbursement of the documentation, as fetched with the
    identifier [id]. *)
Definition disbursement (id : PyVal) : FifthThird.FifthThirdEntry :=
  FifthThird.mkEntry (Some (Date 737638)) (Some (Date 737664)) id
    (Some (mkAmount (Dec.mk 12300 (-2)) (Some "USD")))
    (PStr "ESC DISB - CUSTOMER") (PStr "C") (PStr "5850")
    None (Some (mkAmount (Dec.mk 12300 (-2)) (Some "USD"))) None None
    (PStr "POSTED") PNone "transactions.jsonl" 1.

(** A directive as it is read back from the ledger file: the parser gives
    every directive and every posting a metadata dictionary (its location
    keys are left out here). *)
Definition parsed_meta (m : option Meta) : option Meta := Some (default ∅ m).

Definition as_parsed (d : Directive) : Directive :=
  match d with
  | DTransaction t =>
      DTransaction
        (mkTransaction (parsed_meta (txn_meta t)) (txn_date t) (payee t) (narration t)
           ((fun p => mkPosting (account p) (units p) (cost p) (price p)
                        (parsed_meta (posting_meta p))) <$> postings t))
  | DBalance b =>
      DBalance (mkBalance (parsed_meta (bal_meta b)) (bal_date b) (bal_account b)
                  (bal_amount b))
  | DOpen o => DOpen (mkOpen (parsed_meta (open_meta o)) (open_account o))
  end.

(** The ledger that holds the entries of an import result and nothing
    else. *)
Definition ledger_of (r : ImportResult) : Journal :=
  mkJournal (as_parsed <$> entries r) [].

(** What a posting books: its account and its units. *)
Definition booked (d : Directive) : list (string * option Amount) :=
  match d with
  | DTransaction t => (fun p => (account p, units p)) <$> postings t
  | _ => []
  end.

(** * Properties *)

(** ** Decimal digits and rounding *)

Lemma ndigits_aux_spec (fuel : nat) (n : Z) :
  0 ≤ n → n < 2 ^ (Z.of_nat fuel + 1) →
  1 ≤ Dec.ndigits_aux fuel n ∧
  n < 10 ^ Dec.ndigits_aux fuel n ∧
  (0 < n → 10 ^ (Dec.ndigits_aux fuel n - 1) ≤ n).
Proof.
  revert n. induction fuel as [|fuel IH]; intros n Hn Hlt.
  - simpl in *. lia.
  - cbn [Dec.ndigits_aux]. destruct (Z.ltb_spec n 10) as [Hs|Hs].
    + simpl. lia.
    + assert (Hq : 0 ≤ n / 10) by (apply Z.div_pos; lia).
      assert (Hq1 : 1 ≤ n / 10) by (apply Z.div_le_lower_bound; lia).
      assert (Hq2 : n / 10 < 2 ^ (Z.of_nat fuel + 1)).
      { apply Z.div_lt_upper_bound; [lia|].
        replace (Z.of_nat (S fuel) + 1) with (Z.succ (Z.of_nat fuel + 1)) in Hlt by lia.
        rewrite Z.pow_succ_r in Hlt by lia. lia. }
      destruct (IH (n / 10) Hq Hq2) as (H1 & H2 & H3).
      specialize (H3 ltac:(lia)).
      pose proof (Z.div_mod n 10 ltac:(lia)) as Hdm.
      pose proof (Z.mod_pos_bound n 10 ltac:(lia)) as Hm.
      set (k := Dec.ndigits_aux fuel (n / 10)) in *.
      replace (1 + k) with (Z.succ k) by lia.
      rewrite Z.pow_succ_r by lia.
      replace (Z.succ k - 1) with (Z.succ (k - 1)) by lia.
      rewrite Z.pow_succ_r by lia.
      lia.
Qed.

Lemma ndigits_spec (n : Z) :
  1 ≤ Dec.ndigits n ∧
  Z.abs n < 10 ^ Dec.ndigits n ∧
  (n ≠ 0 → 10 ^ (Dec.ndigits n - 1) ≤ Z.abs n).
Proof.
  unfold Dec.ndigits.
  destruct (decide (n = 0)) as [->|Hn].
  - simpl. lia.
  - pose proof (Z.log2_spec (Z.abs n) ltac:(lia)) as [_ Hl].
    pose proof (Z.log2_nonneg (Z.abs n)).
    destruct (ndigits_aux_spec (Z.to_nat (Z.log2 (Z.abs n))) (Z.abs n)) as (H1 & H2 & H3).
    + lia.
    + rewrite Z2Nat.id by lia. replace (Z.log2 (Z.abs n) + 1) with (Z.succ (Z.log2 (Z.abs n))) by lia.
      exact Hl.
    + repeat split; [done|done|]. intros _. apply H3. lia.
Qed.

Lemma ndigits_le (n k : Z) : 1 ≤ k → Z.abs n < 10 ^ k → Dec.ndigits n ≤ k.
Proof.
  intros Hk Hlt.
  destruct (ndigits_spec n) as (H1 & _ & H3).
  destruct (decide (n = 0)) as [->|Hn]; [vm_compute Dec.ndigits; lia|].
  specialize (H3 Hn).
  destruct (Z.le_gt_cases (Dec.ndigits n) k) as [|Hgt]; [done|].
  assert (10 ^ k ≤ 10 ^ (Dec.ndigits n - 1)) by (apply Z.pow_le_mono_r; lia).
  lia.
Qed.

(** Rounding a coefficient to the nearest multiple of [p], ties to even. *)
Lemma div_half_even_spec (c p : Z) :
  0 < p →
  let q := Dec.div_half_even c p in
  2 * Z.abs (c - q * p) ≤ p ∧ (2 * Z.abs (c - q * p) = p → Z.even q = true).
Proof.
  intros Hp q. subst q. unfold Dec.div_half_even.
  destruct (decide (c = 0)) as [->|Hc].
  { simpl. split; [lia|]. intros; lia. }
  pose proof (Z.div_mod (Z.abs c) p ltac:(lia)) as Hdm.
  pose proof (Z.mod_pos_bound (Z.abs c) p Hp) as Hm.
  set (a := Z.abs c) in *. set (q := a / p) in *. set (r := a mod p) in *.
  assert (Hq0 : 0 ≤ q) by (apply Z.div_pos; lia).
  assert (Hsg : ∀ k, Z.abs (c - Z.sgn c * k * p) = Z.abs (a - k * p)).
  { intros k. subst a. destruct (Z.sgn_spec c) as [(?&->)|[(?&->)|(?&->)]]; lia. }
  assert (Hev : ∀ k, Z.even k = true → Z.even (Z.sgn c * k) = true).
  { intros k Hk. rewrite Z.even_mul, Hk. apply orb_true_r. }
  destruct (Z.ltb_spec p (2 * r)) as [H1|H1]; cbn [orb].
  - rewrite Hsg. split; [nia|]. intros Heq. exfalso. nia.
  - destruct (Z.eqb_spec (2 * r) p) as [H2|H2]; cbn [andb].
    + destruct (Z.odd q) eqn:Hodd.
      * rewrite Hsg. split; [nia|]. intros _. apply Hev.
        rewrite Z.even_add, <- Z.negb_odd, Hodd. reflexivity.
      * rewrite Hsg. split; [nia|]. intros _. apply Hev.
        rewrite <- Z.negb_odd, Hodd. reflexivity.
    + rewrite Hsg. split; [nia|]. intros Heq. exfalso. nia.
Qed.

Lemma div_half_even_bound (c p k : Z) :
  0 < p → Z.abs c ≤ k * p → Z.abs (Dec.div_half_even c p) ≤ k.
Proof.
  intros Hp Hc.
  pose proof (div_half_even_spec c p Hp) as [H _]. cbv zeta in H.
  nia.
Qed.

Lemma rescale_rounds (d : Dec.t) (e : Z) : rounds_half_even d (Dec.rescale d e) e.
Proof.
  unfold rounds_half_even, Dec.rescale.
  destruct (Z.leb_spec e (Dec.exp d)) as [Hle|Hlt]; cbn [Dec.exp Dec.coef].
  - split; [done|]. rewrite Z.min_r by lia. rewrite Z.sub_diag, Z.pow_0_r.
    rewrite Z.mul_1_r. rewrite Z.sub_diag. simpl. lia.
  - split; [done|]. rewrite Z.min_l by lia. rewrite Z.sub_diag, Z.pow_0_r.
    rewrite Z.mul_1_r.
    apply div_half_even_spec. apply Z.pow_pos_nonneg; lia.
Qed.

Lemma quantize_small (d : Dec.t) (e : Z) :
  Dec.coef d ≠ 0 → Dec.exp d + Dec.ndigits (Dec.coef d) - e ≤ Dec.prec - 1 →
  Dec.quantize d e = Ok (Dec.rescale d e).
Proof.
  intros Hc Hb. unfold Dec.quantize, Dec.adjusted.
  destruct (Z.eqb_spec (Dec.coef d) 0) as [|_]; [done|].
  destruct (Z.ltb_spec Dec.prec (Dec.exp d + Dec.ndigits (Dec.coef d) - 1 - e + 1)) as [|_];
    [lia|].
  destruct (Z.ltb_spec Dec.prec (Dec.ndigits (Dec.coef (Dec.rescale d e)))) as [Hbig|_];
    [|done].
  exfalso. revert Hbig. apply Z.le_ngt.
  destruct (ndigits_spec (Dec.coef d)) as (Hd1 & Hd2 & _).
  set (n := Dec.ndigits (Dec.coef d)) in *.
  apply ndigits_le; [unfold Dec.prec; lia|].
  unfold Dec.rescale.
  destruct (Z.leb_spec e (Dec.exp d)) as [Hle|Hlt]; cbn [Dec.coef].
  - rewrite Z.abs_mul, (Z.abs_eq (10 ^ _)) by (apply Z.pow_nonneg; lia).
    assert (10 ^ n * 10 ^ (Dec.exp d - e) ≤ 10 ^ (Dec.prec - 1)).
    { rewrite <- Z.pow_add_r by lia. apply Z.pow_le_mono_r; lia. }
    assert (0 < 10 ^ (Dec.exp d - e)) by (apply Z.pow_pos_nonneg; lia).
    assert (10 ^ (Dec.prec - 1) < 10 ^ Dec.prec) by (apply Z.pow_lt_mono_r; unfold Dec.prec; lia).
    nia.
  - assert (Hp : 0 < 10 ^ (e - Dec.exp d)) by (apply Z.pow_pos_nonneg; lia).
    assert (Z.abs (Dec.div_half_even (Dec.coef d) (10 ^ (e - Dec.exp d))) ≤ 10 ^ (Dec.prec - 1)).
    { apply div_half_even_bound; [done|].
      assert (10 ^ n ≤ 10 ^ (Dec.prec - 1) * 10 ^ (e - Dec.exp d)).
      { rewrite <- Z.pow_add_r by (unfold Dec.prec; lia). apply Z.pow_le_mono_r; lia. }
      lia. }
    assert (10 ^ (Dec.prec - 1) < 10 ^ Dec.prec) by (apply Z.pow_lt_mono_r; unfold Dec.prec; lia).
    lia.
Qed.

(** ** Amount parsing *)

(** C3 (amended).  For a non-zero number [d] below [10 ^ 25] in magnitude,
    [amt] returns the amount in USD whose number is [d] rounded to two
    decimal places, to the nearest value and on a tie to the even one; the
    result has exponent [-2] exactly.  This holds for the [amt] of
    [fifththird.py] and the one of [vanguard.py]. *)
Theorem amt_rounds_half_even `{Runtime} (d : Dec.t) :
  Dec.coef d ≠ 0 →
  Dec.exp d + Dec.ndigits (Dec.coef d) ≤ 25 →
  ∃ r, FifthThird.amt (PNum d) = Ok (Some (mkAmount r (Some "USD"))) ∧
       Vanguard.amt (PNum d) = Ok (Some (mkAmount r (Some "USD"))) ∧
       rounds_half_even d r (-2).
Proof.
  intros Hc Hb. exists (Dec.rescale d (-2)).
  assert (Hq : Dec.round d 2 = Ok (Dec.rescale d (-2))).
  { unfold Dec.round. apply quantize_small; [done|]. unfold Dec.prec. lia. }
  assert (Ht : truthy (PNum d) = true).
  { simpl. unfold Dec.is_zero. destruct (Z.eqb_spec (Dec.coef d) 0); done. }
  unfold FifthThird.amt, Vanguard.amt, FifthThird.D_str, Vanguard.D_str.
  rewrite Ht. cbn [negb mbind Res_bind]. rewrite Hq. cbn.
  repeat split; try done; apply rescale_rounds.
Qed.

(** The amount of the module documentation: 123.10 is read as 123.10. *)
Example amt_123_10 :
  FifthThird.amt (H := Calendar.reference_runtime) (PNum (Dec.mk 1231 (-1)))
  = Ok (Some (mkAmount (Dec.mk 12310 (-2)) (Some "USD"))).
Proof. reflexivity. Qed.

Lemma amt_rounds_half_even_witness :
  let d := Dec.mk 1231 (-1) in
  Dec.coef d ≠ 0 ∧ Dec.exp d + Dec.ndigits (Dec.coef d) ≤ 25 ∧
  ∃ r, FifthThird.amt (H := Calendar.reference_runtime) (PNum d)
       = Ok (Some (mkAmount r (Some "USD"))) ∧
       Vanguard.amt (H := Calendar.reference_runtime) (PNum d)
       = Ok (Some (mkAmount r (Some "USD"))) ∧
       rounds_half_even d r (-2).
Proof.
  intros d.
  assert (H1 : Dec.coef d ≠ 0) by (simpl; lia).
  assert (H2 : Dec.exp d + Dec.ndigits (Dec.coef d) ≤ 25) by (vm_compute; discriminate).
  split; [exact H1|]. split; [exact H2|].
  exact (amt_rounds_half_even (H := Calendar.reference_runtime) d H1 H2).
Defined.

(** C3 (as stated).  The value zero is a numeric amount for which [amt]
    returns no amount at all rather than 0.00. *)
Lemma amt_zero_counterexample :
  FifthThird.amt (H := Calendar.reference_runtime) (PNum (Dec.of_Z 0)) = Ok None
  ∧ rounds_half_even (Dec.of_Z 0) (Dec.mk 0 (-2)) (-2).
Proof.
  split; [reflexivity|]. unfold rounds_half_even. simpl. split; [done|]. split; [lia|].
  intros; lia.
Qed.

(** ** Order on Python values *)

(** The comparison of two decimals can be read at any common scale. *)
Lemma cmp_scaled (a b : Dec.t) (s : Z) :
  s ≤ Dec.exp a → s ≤ Dec.exp b → Dec.cmp a b = (scaled a s ?= scaled b s).
Proof.
  intros Ha Hb. unfold Dec.cmp, scaled.
  set (e := Z.min (Dec.exp a) (Dec.exp b)).
  assert (He : s ≤ e) by (subst e; lia).
  assert (Hp : 0 < 10 ^ (e - s)) by (apply Z.pow_pos_nonneg; lia).
  replace (Dec.exp a - s) with ((Dec.exp a - e) + (e - s)) by lia.
  replace (Dec.exp b - s) with ((Dec.exp b - e) + (e - s)) by lia.
  rewrite !Z.pow_add_r by (subst e; lia).
  rewrite !Z.mul_assoc.
  symmetry. rewrite <- Zmult_compare_compat_r; [reflexivity|lia].
Qed.

Lemma dec_ltb_asym (a b : Dec.t) : Dec.ltb a b = true → Dec.ltb b a = false.
Proof.
  unfold Dec.ltb.
  set (s := Z.min (Dec.exp a) (Dec.exp b)).
  rewrite (cmp_scaled a b s), (cmp_scaled b a s) by (subst s; lia).
  destruct (Z.compare_spec (scaled a s) (scaled b s));
    destruct (Z.compare_spec (scaled b s) (scaled a s)); try done; lia.
Qed.

Lemma dec_eqb_refl (a : Dec.t) : Dec.eqb a a = true.
Proof. unfold Dec.eqb, Dec.cmp. by rewrite Z.compare_refl. Qed.

Lemma dec_lt_not_eq (y x k : Dec.t) :
  Dec.ltb y x = true → Dec.eqb x k = true → Dec.eqb y k = true → False.
Proof.
  unfold Dec.ltb, Dec.eqb.
  set (s := Z.min (Dec.exp y) (Z.min (Dec.exp x) (Dec.exp k))).
  rewrite (cmp_scaled y x s), (cmp_scaled x k s), (cmp_scaled y k s) by (subst s; lia).
  destruct (Z.compare_spec (scaled y s) (scaled x s));
    destruct (Z.compare_spec (scaled x s) (scaled k s));
    destruct (Z.compare_spec (scaled y s) (scaled k s)); try done; lia.
Qed.

Lemma string_compare_refl (s : string) : String.compare s s = Eq.
Proof.
  pose proof (String.compare_antisym s s) as H. destruct (String.compare s s); done.
Qed.

Lemma string_ltb_asym (s s' : string) : string_ltb s s' = true → string_ltb s' s = false.
Proof.
  unfold string_ltb. rewrite (String.compare_antisym s s').
  destruct (String.compare s' s); done.
Qed.

Lemma string_ltb_irrefl (s : string) : string_ltb s s = false.
Proof. unfold string_ltb. by rewrite string_compare_refl. Qed.

Lemma py_eqb_refl (v : PyVal) : py_eqb v v = true.
Proof.
  destruct v; unfold py_eqb; simpl; rewrite ?dec_eqb_refl, ?String.eqb_refl, ?Z.eqb_refl;
    try done.
  by rewrite bool_decide_eq_true_2.
Qed.

Lemma py_lt_asym (a b : PyVal) : py_lt a b = Some true → py_lt b a = Some false.
Proof.
  unfold py_lt.
  destruct (as_number a) as [x|] eqn:Ea, (as_number b) as [y|] eqn:Eb.
  - intros [= Hlt]. by rewrite (dec_ltb_asym _ _ Hlt).
  - destruct a, b; try done.
  - destruct a, b; try done.
  - destruct a, b; try done; simpl.
    + intros [= Hlt]. by rewrite (string_ltb_asym _ _ Hlt).
    + intros [= Hlt]. f_equal. lia.
    + case_bool_decide as Hc.
      * subst. rewrite bool_decide_eq_true_2 by done.
        intros [= Hlt]. by rewrite (dec_ltb_asym _ _ Hlt).
      * rewrite bool_decide_eq_false_2 by done.
        destruct cur, cur0; try done.
        intros [= Hlt]. by rewrite (string_ltb_asym _ _ Hlt).
Qed.

(** Two values equal to a third one are not strictly ordered. *)
Lemma py_lt_not_eq (y x k : PyVal) :
  py_lt y x = Some true → py_eqb x k = true → py_eqb y k = true → False.
Proof.
  unfold py_lt, py_eqb.
  destruct (as_number y) as [ny|] eqn:Ey, (as_number x) as [nx|] eqn:Ex;
    destruct (as_number k) as [nk|] eqn:Ek.
  all: try (intros [= Hlt]; by eauto using dec_lt_not_eq).
  all: try (destruct y, x; done).
  all: try (destruct y, x, k; done).
  destruct y, x; try done; destruct k; try done; simpl.
  - intros [= Hlt] ->%String.eqb_eq ->%String.eqb_eq.
    by rewrite string_ltb_irrefl in Hlt.
  - intros [= Hlt] ?%Z.eqb_eq ?%Z.eqb_eq. lia.
  - intros Hlt [H1 H2]%andb_true_iff [H3 H4]%andb_true_iff.
    apply bool_decide_eq_true in H2, H4. subst.
    rewrite bool_decide_eq_true_2 in Hlt by done. injection Hlt as Hlt.
    eauto using dec_lt_not_eq.
Qed.

(** ** Sorting *)

Section SortFacts.
Context {A : Type} (key : A → PyVal).

Lemma key_lt_asym (a b : A) : key_lt key a b = true → key_lt key b a = false.
Proof.
  unfold key_lt. destruct (py_lt (key a) (key b)) as [[]|] eqn:E; try done.
  intros _. by rewrite (py_lt_asym _ _ E).
Qed.

Lemma insert_sorted_perm (x : A) (l : list A) : insert_sorted key x l ≡ₚ x :: l.
Proof.
  induction l as [|y l IH]; simpl; [done|].
  destruct (key_lt key y x); [|done].
  rewrite IH. apply Permutation_swap.
Qed.

Lemma stable_sort_perm (l : list A) : stable_sort key l ≡ₚ l.
Proof.
  induction l as [|x l IH]; simpl; [done|].
  by rewrite insert_sorted_perm, IH.
Qed.

Lemma insert_sorted_HdRel (z x : A) (l : list A) :
  key_le key z x → HdRel (key_le key) z l → HdRel (key_le key) z (insert_sorted key x l).
Proof.
  intros Hzx Hz. destruct l as [|y l]; simpl; [by constructor|].
  destruct (key_lt key y x); constructor; [by inversion Hz|done].
Qed.

Lemma insert_sorted_Sorted (x : A) (l : list A) :
  Sorted (key_le key) l → Sorted (key_le key) (insert_sorted key x l).
Proof.
  induction l as [|y l IH]; simpl; intros Hs.
  - repeat constructor.
  - apply Sorted_inv in Hs as [Hs Hhd].
    destruct (key_lt key y x) eqn:E.
    + constructor; [by apply IH|].
      apply insert_sorted_HdRel; [|done]. by apply key_lt_asym.
    + constructor; [by constructor|]. by constructor.
Qed.

Lemma stable_sort_Sorted (l : list A) : Sorted (key_le key) (stable_sort key l).
Proof.
  induction l as [|x l IH]; simpl; [constructor|]. by apply insert_sorted_Sorted.
Qed.

(** Stability: the elements of any one key keep their order. *)
Lemma insert_sorted_filter (k : PyVal) (x : A) (l : list A) :
  List.filter (fun a => py_eqb (key a) k) (insert_sorted key x l)
  = List.filter (fun a => py_eqb (key a) k) (x :: l).
Proof.
  induction l as [|y l IH]; [done|].
  cbn [insert_sorted]. destruct (key_lt key y x) eqn:E; [|done].
  cbn [List.filter] in *. rewrite IH.
  destruct (py_eqb (key x) k) eqn:Ex, (py_eqb (key y) k) eqn:Ey; try done.
  exfalso. unfold key_lt in E.
  destruct (py_lt (key y) (key x)) as [[]|] eqn:El; try done.
  eauto using py_lt_not_eq.
Qed.

Lemma stable_sort_filter (k : PyVal) (l : list A) :
  List.filter (fun a => py_eqb (key a) k) (stable_sort key l)
  = List.filter (fun a => py_eqb (key a) k) l.
Proof.
  induction l as [|x l IH]; [done|].
  cbn [stable_sort]. rewrite insert_sorted_filter. cbn [List.filter]. by rewrite IH.
Qed.

Lemma stable_sort_short (l : list A) : (length l < 2)%nat → stable_sort key l = l.
Proof. destruct l as [|x [|y l]]; simpl; try done; lia. Qed.

Lemma list_sort_Ok (l out : list A) :
  list_sort key l = Ok out → out = stable_sort key l.
Proof.
  unfold list_sort. destruct (Nat.ltb_spec (length l) 2) as [Hs|Hs].
  - intros [= <-]. by rewrite stable_sort_short.
  - destruct (comparable key l); [|done]. by intros [= <-].
Qed.

(** Elements with equal keys come out in the order they went in: if the
    input is strictly ordered by [R], two elements of the output with
    equal keys are in the order [R]. *)
Lemma stable_sort_ties (R : relation A) (l : list A) (i j : nat) (a b : A) :
  StronglySorted R l →
  (i < j)%nat →
  stable_sort key l !! i = Some a →
  stable_sort key l !! j = Some b →
  py_eqb (key a) (key b) = true →
  R a b.
Proof.
  intros Hl Hij Hi Hj Heq.
  set (P := fun a => py_eqb (key a) (key b)).
  assert (Hf : List.filter P (stable_sort key l) = List.filter P l)
    by apply stable_sort_filter.
  apply list_elem_of_split_length in Hi as (l1 & l2 & Hout & Hlen1).
  rewrite Hout in Hj.
  rewrite lookup_app_r in Hj by lia.
  destruct (j - length l1)%nat as [|j'] eqn:Ej; [lia|]. simpl in Hj.
  apply list_elem_of_split_length in Hj as (l3 & l4 & -> & _).
  rewrite Hout in Hf.
  rewrite List.filter_app in Hf. cbn [List.filter] in Hf.
  rewrite List.filter_app in Hf. cbn [List.filter] in Hf.
  unfold P at 2 4 in Hf. rewrite Heq, py_eqb_refl in Hf.
  assert (Hs : StronglySorted R (List.filter P l)).
  { clear -Hl. induction Hl as [|x l Hl IH Hx]; simpl; [constructor|].
    destruct (P x); [|done]. constructor; [done|].
    apply Forall_forall. intros y Hy%list_elem_of_In%List.filter_In.
    rewrite Forall_forall in Hx. apply Hx, list_elem_of_In, Hy. }
  rewrite <- Hf in Hs.
  apply StronglySorted_app_1_r in Hs.
  apply StronglySorted_inv in Hs as [_ Hall].
  rewrite Forall_forall in Hall. apply Hall.
  apply list_elem_of_In, in_or_app. right. by left.
Qed.

End SortFacts.

Lemma StronglySorted_reverse {A} (R : relation A) (l : list A) :
  StronglySorted R l → StronglySorted (flip R) (reverse l).
Proof.
  induction 1 as [|x l Hl IH Hx]; [apply SSorted_nil|].
  rewrite reverse_cons. apply StronglySorted_app_2; [|done|repeat constructor].
  intros y z Hy ->%list_elem_of_singleton. rewrite elem_of_reverse in Hy.
  rewrite Forall_forall in Hx. unfold flip. by apply Hx.
Qed.

Lemma comparable_spec {A} (key : A → PyVal) (l : list A) :
  comparable key l = true ↔
  ∀ a b, a ∈ l → b ∈ l → is_Some (py_lt (key a) (key b)).
Proof.
  unfold comparable. rewrite forallb_forall. split.
  - intros Hc a b Ha%list_elem_of_In Hb%list_elem_of_In.
    specialize (Hc a Ha). rewrite forallb_forall in Hc.
    specialize (Hc b Hb). by apply bool_decide_eq_true in Hc.
  - intros Hc a Ha%list_elem_of_In. rewrite forallb_forall.
    intros b Hb%list_elem_of_In. apply bool_decide_eq_true. by apply Hc.
Qed.

(** What [entries.reverse(); entries.sort(key=...)] returns on entries that
    are in the order of their lines. *)
Lemma sort_reversed {A} (key : A → PyVal) (line : A → Z) (es out : list A) :
  StronglySorted (fun a b => line a < line b) es →
  list_sort key (reverse es) = Ok out →
  out = stable_sort key (reverse es) ∧
  out ≡ₚ es ∧
  Sorted (key_le key) out ∧
  ∀ (i j : nat) a b, (i < j)%nat → out !! i = Some a → out !! j = Some b →
                     py_eqb (key a) (key b) = true → line b < line a.
Proof.
  intros Hes Hsort. apply list_sort_Ok in Hsort as ->.
  split; [done|]. split; [by rewrite stable_sort_perm, reverse_Permutation|].
  split; [apply stable_sort_Sorted|].
  intros i j a b Hij Hi Hj Heq.
  apply (stable_sort_ties key (flip (fun a b => line a < line b)) (reverse es) i j a b);
    auto using StronglySorted_reverse.
Qed.

Lemma sort_reversed_total {A} (key : A → PyVal) (es : list A) :
  ((length es < 2)%nat ∨ ∀ a b, a ∈ es → b ∈ es → is_Some (py_lt (key a) (key b))) →
  list_sort key (reverse es) = Ok (stable_sort key (reverse es)).
Proof.
  intros Hc. unfold list_sort. rewrite length_reverse.
  destruct (Nat.ltb_spec (length es) 2) as [Hs|Hs].
  - by rewrite stable_sort_short by (by rewrite length_reverse).
  - destruct Hc as [|Hc]; [lia|].
    assert (comparable key (reverse es) = true) as ->; [|done].
    apply comparable_spec. intros a b Ha Hb. rewrite elem_of_reverse in Ha, Hb. auto.
Qed.

(** ** Loading *)

Lemma fifththird_load_line_line `{Runtime} filename lno line e :
  FifthThird.load_line filename lno line = Ok e → FifthThird.entry_line e = lno.
Proof.
  unfold FifthThird.load_line. destruct line as [data|]; [|done].
  repeat match goal with
         | |- context [mbind _ ?m] =>
             match m with
             | FifthThird.date _ => destruct m
             | FifthThird.amt _ => destruct m
             end; cbn [mbind Res_bind]; [|done]
         end.
  by intros [= <-].
Qed.

Lemma fifththird_load_lines_line `{Runtime} filename lines : ∀ lno es,
  FifthThird.load_lines filename lno lines = Ok es →
  Forall (fun e => lno < FifthThird.entry_line e) es ∧
  StronglySorted (fun a b => FifthThird.entry_line a < FifthThird.entry_line b) es.
Proof.
  induction lines as [|line lines IH]; intros lno es; cbn [FifthThird.load_lines].
  - intros [= <-]. split; constructor.
  - destruct (FifthThird.load_line filename (lno + 1) line) as [e|] eqn:He;
      cbn [mbind Res_bind]; [|done].
    destruct (FifthThird.load_lines filename (lno + 1) lines) as [es'|] eqn:Hes;
      cbn [mbind Res_bind]; [|done].
    intros [= <-]. destruct (IH _ _ Hes) as [Hall Hs].
    apply fifththird_load_line_line in He.
    split.
    + constructor; [lia|]. eapply Forall_impl; [exact Hall|]. cbv beta. lia.
    + constructor; [done|]. eapply Forall_impl; [exact Hall|]. cbv beta. lia.
Qed.

Lemma vanguard_load_line_line `{Runtime} filename lno line e :
  Vanguard.load_line filename lno line = Ok e → Vanguard.entry_line e = lno.
Proof.
  unfold Vanguard.load_line. destruct line as [data|]; [|done].
  destruct (mapR _ _); cbn [mbind Res_bind]; [|done].
  destruct (bool_decide _); [|done]. by intros [= <-].
Qed.

Lemma vanguard_load_lines_line `{Runtime} filename lines : ∀ lno es,
  Vanguard.load_lines filename lno lines = Ok es →
  Forall (fun e => lno < Vanguard.entry_line e) es ∧
  StronglySorted (fun a b => Vanguard.entry_line a < Vanguard.entry_line b) es.
Proof.
  induction lines as [|line lines IH]; intros lno es; cbn [Vanguard.load_lines].
  - intros [= <-]. split; constructor.
  - destruct (Vanguard.load_line filename (lno + 1) line) as [e|] eqn:He;
      cbn [mbind Res_bind]; [|done].
    destruct (Vanguard.load_lines filename (lno + 1) lines) as [es'|] eqn:Hes;
      cbn [mbind Res_bind]; [|done].
    intros [= <-]. destruct (IH _ _ Hes) as [Hall Hs].
    apply vanguard_load_line_line in He.
    split.
    + constructor; [lia|]. eapply Forall_impl; [exact Hall|]. cbv beta. lia.
    + constructor; [done|]. eapply Forall_impl; [exact Hall|]. cbv beta. lia.
Qed.

Lemma fifththird_load_inv `{Runtime} filename lines out :
  FifthThird.load_transactions filename lines = Ok out →
  ∃ es, FifthThird.load_lines filename 0 lines = Ok es ∧
        list_sort FifthThird.sort_key (reverse es) = Ok out.
Proof.
  unfold FifthThird.load_transactions.
  destruct (FifthThird.load_lines filename 0 lines) as [es|]; cbn [mbind Res_bind]; [|done].
  destruct (list_sort _ _) as [out'|] eqn:E; [|done]. intros [= <-]. eauto.
Qed.

Lemma vanguard_load_inv `{Runtime} filename lines out :
  Vanguard.load_transactions filename lines = Ok out →
  ∃ es, Vanguard.load_lines filename 0 lines = Ok es ∧
        list_sort Vanguard.sort_key (reverse es) = Ok out.
Proof.
  unfold Vanguard.load_transactions.
  destruct (Vanguard.load_lines filename 0 lines) as [es|]; cbn [mbind Res_bind]; [|done].
  destruct (list_sort _ _) as [out'|] eqn:E; [|done]. intros [= <-]. eauto.
Qed.

(** C4 (amended).  Whenever [load_transactions] returns, of [fifththird.py]
    (key [posting_date]) or of [vanguard.py] (key [sequenceNumber]), the
    result is the decoded records reversed and then sorted stably: a
    permutation of the records, ascending by key, in which two records with
    equal keys stand in the reverse of their order in the file (the later
    line first).  It does return when every line decodes and the keys
    compare with each other (or there are fewer than two records). *)
Theorem load_transactions_order `{Runtime} (filename : string)
    (lines : list (option JObject)) :
  (∀ out, FifthThird.load_transactions filename lines = Ok out →
     ∃ es, FifthThird.load_lines filename 0 lines = Ok es ∧
       out = stable_sort FifthThird.sort_key (reverse es) ∧
       out ≡ₚ es ∧
       Sorted (key_le FifthThird.sort_key) out ∧
       ∀ (i j : nat) a b, (i < j)%nat → out !! i = Some a → out !! j = Some b →
         py_eqb (FifthThird.sort_key a) (FifthThird.sort_key b) = true →
         FifthThird.entry_line b < FifthThird.entry_line a) ∧
  (∀ es, FifthThird.load_lines filename 0 lines = Ok es →
     ((length es < 2)%nat ∨
      ∀ a b, a ∈ es → b ∈ es →
             is_Some (py_lt (FifthThird.sort_key a) (FifthThird.sort_key b))) →
     FifthThird.load_transactions filename lines
     = Ok (stable_sort FifthThird.sort_key (reverse es))) ∧
  (∀ out, Vanguard.load_transactions filename lines = Ok out →
     ∃ es, Vanguard.load_lines filename 0 lines = Ok es ∧
       out = stable_sort Vanguard.sort_key (reverse es) ∧
       out ≡ₚ es ∧
       Sorted (key_le Vanguard.sort_key) out ∧
       ∀ (i j : nat) a b, (i < j)%nat → out !! i = Some a → out !! j = Some b →
         py_eqb (Vanguard.sort_key a) (Vanguard.sort_key b) = true →
         Vanguard.entry_line b < Vanguard.entry_line a) ∧
  (∀ es, Vanguard.load_lines filename 0 lines = Ok es →
     ((length es < 2)%nat ∨
      ∀ a b, a ∈ es → b ∈ es →
             is_Some (py_lt (Vanguard.sort_key a) (Vanguard.sort_key b))) →
     Vanguard.load_transactions filename lines
     = Ok (stable_sort Vanguard.sort_key (reverse es))).
Proof.
  repeat split.
  - intros out (es & Hes & Hsort)%fifththird_load_inv.
    exists es. split; [done|].
    apply (sort_reversed _ FifthThird.entry_line); [|done].
    by apply (fifththird_load_lines_line filename lines 0).
  - intros es Hes Hc. unfold FifthThird.load_transactions.
    rewrite Hes. cbn [mbind Res_bind]. by rewrite sort_reversed_total.
  - intros out (es & Hes & Hsort)%vanguard_load_inv.
    exists es. split; [done|].
    apply (sort_reversed _ Vanguard.entry_line); [|done].
    by apply (vanguard_load_lines_line filename lines 0).
  - intros es Hes Hc. unfold Vanguard.load_transactions.
    rewrite Hes. cbn [mbind Res_bind]. by rewrite sort_reversed_total.
Qed.

Lemma load_transactions_order_witness :
  ∃ out,
    FifthThird.load_transactions (H := Calendar.reference_runtime)
      "transactions.jsonl" fifththird_sample = Ok out ∧
    ∃ es, FifthThird.load_lines (H := Calendar.reference_runtime)
            "transactions.jsonl" 0 fifththird_sample = Ok es ∧
      out = stable_sort FifthThird.sort_key (reverse es) ∧
      out ≡ₚ es ∧
      Sorted (key_le FifthThird.sort_key) out ∧
      ∀ (i j : nat) a b, (i < j)%nat → out !! i = Some a → out !! j = Some b →
        py_eqb (FifthThird.sort_key a) (FifthThird.sort_key b) = true →
        FifthThird.entry_line b < FifthThird.entry_line a.
Proof.
  eexists. split; [vm_compute; reflexivity|].
  apply (proj1 (load_transactions_order (H := Calendar.reference_runtime)
                  "transactions.jsonl" fifththird_sample)).
  vm_compute. reflexivity.
Defined.

(** C4 (as stated).  The two records of the documentation have the same
    posting date; the record of line 2 comes out before the record of
    line 1, so records with equal keys do not keep their order in the
    file. *)
Lemma load_transactions_ties_counterexample :
  ∃ a b,
    FifthThird.load_transactions (H := Calendar.reference_runtime)
      "transactions.jsonl" fifththird_sample = Ok [a; b] ∧
    py_eqb (FifthThird.sort_key a) (FifthThird.sort_key b) = true ∧
    FifthThird.entry_line a = 2 ∧ FifthThird.entry_line b = 1.
Proof.
  do 2 eexists. split; [vm_compute; reflexivity|]. by vm_compute.
Qed.

(** ** Balance assertions *)

(** C2.  For a statement entry (transaction code "9999") with posting date
    [D], every entry of the import result is a balance assertion dated
    [D] plus one day, and so is the result itself; the liability and the
    escrow assertion are there when their amounts are.  The result exists
    whenever [D] is a date before [date.max]. *)
Theorem balance_assertions_next_day (e : FifthThird.FifthThirdEntry) (D : date_t) :
  py_eqb (FifthThird.transaction_code e) (PStr "9999") = true →
  FifthThird.posting_date e = Some D →
  (∀ r, FifthThird._make_import_result e = Ok r →
     date_ r = PDate (Date (toordinal D + 1)) ∧
     Forall (is_balance_on (Date (toordinal D + 1))) (entries r) ∧
     (amount_truthy (FifthThird.principal_amount e) = true →
      ∃ b, DBalance b ∈ entries r ∧ bal_account b = "Liabilities:Mortgage:FifthThird") ∧
     (amount_truthy (FifthThird.escrow_amount e) = true →
      ∃ b, DBalance b ∈ entries r ∧ bal_account b = "Assets:FifthThird:Escrow")) ∧
  (0 < toordinal D < MAXORDINAL → is_Ok (FifthThird._make_import_result e) = true).
Proof.
  intros Hcode HD. unfold FifthThird._make_import_result.
  rewrite Hcode, HD. cbn [mbind Res_bind]. unfold date_add_days.
  destruct ((0 <? toordinal D + 1) && (toordinal D + 1 <=? MAXORDINAL)) eqn:Hr;
    cbn [mbind Res_bind].
  - split; [|done]. intros r [= <-]. cbn [date_ entries]. split; [done|].
    destruct (FifthThird.principal_amount e) as [p|], (FifthThird.escrow_amount e) as [q|];
      cbn [amount_truthy];
      repeat match goal with
             | |- context [negb (Dec.is_zero ?x)] => destruct (negb (Dec.is_zero x))
             end;
      cbn [app];
      (split; [repeat (apply List.Forall_cons; [reflexivity|]); apply List.Forall_nil|]);
      (split; intros; [try done|try done]);
      first [ solve [eexists; split; [rewrite !elem_of_cons; left; reflexivity|reflexivity]]
            | solve [eexists; split;
                     [rewrite !elem_of_cons; right; left; reflexivity|reflexivity]] ].
  - split; [done|]. intros Hrange. exfalso.
    apply andb_false_iff in Hr as [Hr|Hr]; [apply Z.ltb_ge in Hr|apply Z.leb_gt in Hr]; lia.
Qed.

Lemma balance_assertions_next_day_witness :
  let e := fifththird_statement in
  let D := Date 737664 in
  py_eqb (FifthThird.transaction_code e) (PStr "9999") = true ∧
  FifthThird.posting_date e = Some D ∧
  (∀ r, FifthThird._make_import_result e = Ok r →
     date_ r = PDate (Date (toordinal D + 1)) ∧
     Forall (is_balance_on (Date (toordinal D + 1))) (entries r) ∧
     (amount_truthy (FifthThird.principal_amount e) = true →
      ∃ b, DBalance b ∈ entries r ∧ bal_account b = "Liabilities:Mortgage:FifthThird") ∧
     (amount_truthy (FifthThird.escrow_amount e) = true →
      ∃ b, DBalance b ∈ entries r ∧ bal_account b = "Assets:FifthThird:Escrow")) ∧
  (0 < toordinal D < MAXORDINAL → is_Ok (FifthThird._make_import_result e) = true).
Proof.
  intros e D. split; [reflexivity|]. split; [reflexivity|].
  exact (balance_assertions_next_day e D eq_refl eq_refl).
Defined.

(** ** The import loop *)

Section ImportLoopFacts.
Context {E : Type} (skip : E → bool) (make : E → Res ImportResult).

Lemma import_loop_app (l1 l2 : list E) (r : SourceResults) :
  import_loop skip make (l1 ++ l2) r =
  match import_loop skip make l1 r with
  | (r', Ok _) => import_loop skip make l2 r'
  | (r', Raise x) => (r', Raise x)
  end.
Proof.
  revert r. induction l1 as [|e l1 IH]; intros r; cbn [app import_loop]; [done|].
  destruct (skip e); [apply IH|]. destruct (make e); [apply IH|done].
Qed.

Lemma import_loop_skip (l1 l2 : list E) (e : E) (r : SourceResults) :
  skip e = true →
  import_loop skip make (l1 ++ e :: l2) r = import_loop skip make (l1 ++ l2) r.
Proof.
  intros He. rewrite !import_loop_app. cbn [import_loop]. by rewrite He.
Qed.

Lemma import_loop_Ok (l : list E) : ∀ (r r' : SourceResults),
  import_loop skip make l r = (r', Ok ()) →
  accounts r' = accounts r ∧
  ∃ rs, pending r' = pending r ++ rs ∧
        Forall2 (fun e res => make e = Ok res)
          (List.filter (fun e => negb (skip e)) l) rs.
Proof.
  induction l as [|e l IH]; intros r r'; cbn [import_loop List.filter].
  - intros [= <-]. split; [done|]. exists []. by rewrite app_nil_r.
  - destruct (skip e); cbn [negb]; [apply IH|].
    destruct (make e) as [res|] eqn:Hm; [|done].
    intros (Ha & rs & Hp & Hf)%IH. split; [done|].
    exists (res :: rs). cbn [add_pending_entry pending] in Hp.
    rewrite <- app_assoc in Hp. split; [done|]. by constructor.
Qed.

End ImportLoopFacts.

Lemma add_account_pending (a : PyVal) (r : SourceResults) :
  pending (add_account a r) = pending r.
Proof. done. Qed.

Lemma fifththird_prepare_loop ex (l : list FifthThird.FifthThirdEntry) : ∀ r,
  FifthThird.prepare_loop ex l r =
  import_loop (fun e => py_in (FifthThird.transaction_id e) ex)
    FifthThird._make_import_result l r.
Proof.
  induction l as [|e l IH]; intros r; cbn [FifthThird.prepare_loop import_loop]; [done|].
  destruct (py_in _ _); [apply IH|].
  destruct (FifthThird._make_import_result e); [apply IH|done].
Qed.

Lemma vanguard_prepare_loop `{Runtime} ex accts maps (l : list Vanguard.VanguardEntry) :
  ∀ r,
  Vanguard.prepare_loop ex accts maps l r =
  import_loop (fun e => py_in (Vanguard.fld e "sequenceNumber") ex)
    (fun e => Vanguard._make_import_result e accts maps) l r.
Proof.
  induction l as [|e l IH]; intros r; cbn [Vanguard.prepare_loop import_loop]; [done|].
  destruct (py_in _ _); [apply IH|].
  destruct (Vanguard._make_import_result e accts maps); [apply IH|done].
Qed.

Lemma wegmans_prepare_loop `{Runtime} ex (l : list Wegmans.Order) : ∀ r,
  existsb (fun e => bool_decide (Wegmans.id e = None)) l = false →
  Wegmans.prepare_loop ex l r =
  import_loop (wegmans_skip ex) Wegmans._make_import_result l r.
Proof.
  induction l as [|e l IH]; intros r; cbn [Wegmans.prepare_loop import_loop existsb];
    [done|].
  intros [Hid Hl]%orb_false_iff. apply bool_decide_eq_false in Hid.
  unfold wegmans_skip, key_present.
  destruct (Wegmans.is_cancelled e); cbn [orb]; [by apply IH|].
  destruct (Wegmans.id e) as [k|]; [|done].
  destruct (py_in k ex); [by apply IH|].
  destruct (Wegmans._make_import_result e); [by apply IH|done].
Qed.

(** ** De-duplication *)

Lemma fifththird_dedup :
  dedup_spec (fun e => Some (FifthThird.transaction_id e)) (fun _ => false)
    (fun _ e => FifthThird._make_import_result e)
    FifthThird._get_existing_transaction_ids FifthThird.prepare.
Proof.
  intros journal ex Hex. split.
  - intros l1 e l2 r Hk. unfold FifthThird.prepare. rewrite Hex.
    rewrite !fifththird_prepare_loop. by rewrite import_loop_skip.
  - intros entries r r'. unfold FifthThird.prepare. rewrite Hex.
    rewrite fifththird_prepare_loop.
    destruct (import_loop _ _ entries r) as [r'' [[]|]] eqn:Hl; [|done].
    intros [= <-]. apply import_loop_Ok in Hl as (_ & rs & Hp & Hf).
    exists rs. rewrite !add_account_pending. split; [done|].
    erewrite List.filter_ext; [exact Hf|]. intros e. cbn. by rewrite andb_true_r.
Qed.

Lemma vanguard_dedup `{Runtime} (account_mappings : list (string * string)) :
  dedup_spec (fun e => Some (Vanguard.fld e "sequenceNumber")) (fun _ => false)
    (fun journal e =>
       Vanguard._make_import_result e (Vanguard.find_vanguard_accounts journal)
         account_mappings)
    Vanguard._get_existing_transaction_ids
    (fun entries => Vanguard.prepare entries account_mappings).
Proof.
  intros journal ex Hex. split.
  - intros l1 e l2 r Hk. unfold Vanguard.prepare. rewrite Hex.
    rewrite !vanguard_prepare_loop. by rewrite import_loop_skip.
  - intros entries r r'. unfold Vanguard.prepare. rewrite Hex.
    rewrite vanguard_prepare_loop.
    destruct (import_loop _ _ entries r) as [r'' [[]|]] eqn:Hl; [|done].
    intros [= <-]. apply import_loop_Ok in Hl as (_ & rs & Hp & Hf).
    exists rs. split.
    + rewrite <- Hp. clear.
      assert (Hfold : ∀ {X} (f : X → PyVal) (l : list X) r0,
                 pending (foldl (fun r kv => add_account (f kv) r) r0 l) = pending r0).
      { intros X f l. induction l as [|x l IH]; intros r0; [done|]. cbn. by rewrite IH. }
      by rewrite (Hfold _ (fun kv => kv.1)), (Hfold _ (fun kv => PStr kv.2)).
    + erewrite List.filter_ext; [exact Hf|]. intros e. cbn. by rewrite andb_true_r.
Qed.

Lemma wegmans_prepare_inv `{Runtime} entries journal ex r :
  Wegmans._get_existing_transaction_ids (all_entries journal) = Ok ex →
  existsb (fun e => bool_decide (Wegmans.id e = None)) entries = false →
  Wegmans.prepare entries journal r =
  match import_loop (wegmans_skip ex) Wegmans._make_import_result entries r with
  | (r', Ok _) => (add_account (PStr "Liabilities:Wegmans") r', Ok ())
  | (r', Raise x) => (r', Raise x)
  end.
Proof.
  intros Hex Hids. unfold Wegmans.prepare. rewrite Hids, Hex.
  by rewrite wegmans_prepare_loop.
Qed.

Lemma wegmans_dedup `{Runtime} :
  dedup_spec Wegmans.id Wegmans.is_cancelled (fun _ e => Wegmans._make_import_result e)
    Wegmans._get_existing_transaction_ids Wegmans.prepare.
Proof.
  intros journal ex Hex. split.
  - intros l1 e l2 r Hk.
    assert (Hid : bool_decide (Wegmans.id e = None) = false).
    { unfold key_present in Hk. destruct (Wegmans.id e); [|done].
      by apply bool_decide_eq_false. }
    destruct (existsb (fun e => bool_decide (Wegmans.id e = None)) (l1 ++ l2)) eqn:Hids.
    + unfold Wegmans.prepare. rewrite Hids.
      rewrite existsb_app in Hids |- *. cbn [existsb]. rewrite Hid. cbn [orb].
      by rewrite Hids.
    + rewrite !(wegmans_prepare_inv _ _ ex) by
        (try done; rewrite existsb_app in Hids |- *; cbn [existsb];
         by rewrite Hid).
      rewrite import_loop_skip; [done|]. unfold wegmans_skip. rewrite Hk.
      apply orb_true_r.
  - intros entries r r'.
    destruct (existsb (fun e => bool_decide (Wegmans.id e = None)) entries) eqn:Hids.
    { unfold Wegmans.prepare. by rewrite Hids. }
    rewrite (wegmans_prepare_inv _ _ ex) by done.
    destruct (import_loop _ _ entries r) as [r'' [[]|]] eqn:Hl; [|done].
    intros [= <-]. apply import_loop_Ok in Hl as (_ & rs & Hp & Hf).
    exists rs. rewrite add_account_pending. split; [done|].
    erewrite List.filter_ext; [exact Hf|]. intros e. unfold wegmans_skip.
    by destruct (Wegmans.is_cancelled e), (key_present Wegmans.id ex e).
Qed.

(** C1.  In each of the three sources, an entry whose external key
    (fifththird: [transaction_id]; vanguard: [sequenceNumber]; wegmans:
    [id]) is in the set of keys collected from the metadata of the
    transactions and postings of the ledger adds nothing to the pending
    results, whatever its other fields are: [prepare] runs as if the entry
    had not been loaded.  The entries whose key is not in that set are the
    ones that are imported (for wegmans, those that are not cancelled). *)
Theorem dedup_by_external_key `{Runtime} (account_mappings : list (string * string)) :
  dedup_spec (fun e => Some (FifthThird.transaction_id e)) (fun _ => false)
    (fun _ e => FifthThird._make_import_result e)
    FifthThird._get_existing_transaction_ids FifthThird.prepare ∧
  dedup_spec (fun e => Some (Vanguard.fld e "sequenceNumber")) (fun _ => false)
    (fun journal e =>
       Vanguard._make_import_result e (Vanguard.find_vanguard_accounts journal)
         account_mappings)
    Vanguard._get_existing_transaction_ids
    (fun entries => Vanguard.prepare entries account_mappings) ∧
  dedup_spec Wegmans.id Wegmans.is_cancelled (fun _ e => Wegmans._make_import_result e)
    Wegmans._get_existing_transaction_ids Wegmans.prepare.
Proof.
  split; [apply fifththird_dedup|]. split; [apply vanguard_dedup|apply wegmans_dedup].
Qed.

Lemma dedup_by_external_key_witness :
  ∃ a b,
    FifthThird.load_transactions (H := Calendar.reference_runtime)
      "transactions.jsonl" fifththird_sample = Ok [a; b] ∧
    key_present (fun e => Some (FifthThird.transaction_id e)) [PStr "UUID1"] b = true ∧
    FifthThird.prepare ([a] ++ b :: []) (ledger_with (PStr "UUID1")) empty_results
    = FifthThird.prepare ([a] ++ []) (ledger_with (PStr "UUID1")) empty_results.
Proof.
  do 2 eexists. split; [vm_compute; reflexivity|]. split; [reflexivity|].
  apply (proj1 (proj1 (dedup_by_external_key (H := Calendar.reference_runtime) [])
                  (ledger_with (PStr "UUID1")) [PStr "UUID1"] eq_refl)).
  reflexivity.
Defined.

(** ** Cancelled orders *)

Lemma wegmans_prepare_loop_cancelled `{Runtime} ex (l1 l2 : list Wegmans.Order) e :
  Wegmans.is_cancelled e = true →
  ∀ r, Wegmans.prepare_loop ex (l1 ++ e :: l2) r = Wegmans.prepare_loop ex (l1 ++ l2) r.
Proof.
  intros He. induction l1 as [|x l1 IH]; intros r; cbn [app Wegmans.prepare_loop].
  - by rewrite He.
  - destruct (Wegmans.is_cancelled x); [apply IH|].
    destruct (Wegmans.id x); [|done]. destruct (py_in _ _); [apply IH|].
    destruct (Wegmans._make_import_result x); [apply IH|done].
Qed.

(** C9.  An order whose [status] is "cancelled" adds no pending result,
    whatever its other fields and whatever the ledger holds: the loop of
    [prepare] passes over it before it looks at the key or builds
    anything, so [prepare] runs as if the order had not been loaded; if the
    order has no [id] at all, [prepare] raises KeyError before the loop and
    adds nothing. *)
Theorem cancelled_orders_skipped `{Runtime} (l1 l2 : list Wegmans.Order)
    (e : Wegmans.Order) (journal : Journal) (results : SourceResults) :
  Wegmans.is_cancelled e = true →
  (∀ ex r, Wegmans.prepare_loop ex (e :: l2) r = Wegmans.prepare_loop ex l2 r) ∧
  (Wegmans.id e ≠ None →
   Wegmans.prepare (l1 ++ e :: l2) journal results
   = Wegmans.prepare (l1 ++ l2) journal results) ∧
  (Wegmans.id e = None →
   Wegmans.prepare (l1 ++ e :: l2) journal results = (results, Raise KeyError)).
Proof.
  intros He. split; [|split].
  - intros ex r. cbn [Wegmans.prepare_loop]. by rewrite He.
  - intros Hid. unfold Wegmans.prepare.
    rewrite !existsb_app. cbn [existsb].
    rewrite (bool_decide_eq_false_2 _ Hid). cbn [orb].
    destruct (_ || _); [done|].
    destruct (Wegmans._get_existing_transaction_ids _); [|done].
    by rewrite wegmans_prepare_loop_cancelled.
  - intros Hid. unfold Wegmans.prepare.
    rewrite !existsb_app. cbn [existsb].
    rewrite (bool_decide_eq_true_2 _ Hid). cbn [orb]. by rewrite orb_true_r.
Qed.

Lemma cancelled_orders_skipped_witness :
  let e := grocery_order (Some (PStr "cancelled")) (Dec.mk 10000 (-2)) two_items in
  let journal := ledger_with (PStr "UUID1") in
  Wegmans.is_cancelled e = true ∧
  Wegmans.prepare (H := Calendar.reference_runtime) ([] ++ e :: []) journal empty_results
  = Wegmans.prepare (H := Calendar.reference_runtime) ([] ++ []) journal empty_results.
Proof.
  intros e journal. split; [reflexivity|].
  apply (cancelled_orders_skipped (H := Calendar.reference_runtime) [] [] e journal
           empty_results eq_refl).
  discriminate.
Defined.

(** ** Line items *)

(** Destructs the left operand of the first bind of a hypothesis
    [m ≫= k = Ok _]. *)
Ltac bind_inv H x E :=
  match type of H with
  | mbind _ ?m = Ok _ =>
      destruct m as [x|] eqn:E; cbn [mbind Res_bind] in H; [|discriminate H]
  end.

Lemma req_Ok {A} (v : option A) (a : A) : Wegmans.req v = Ok a → v = Some a.
Proof. destruct v; [|done]. by intros [= ->]. Qed.

Lemma decimal_of_Ok (v : PyVal) (d : Dec.t) : Wegmans.decimal_of v = Ok d → v = PNum d.
Proof. destruct v; try done. by intros [= ->]. Qed.

Lemma counted_cons (item : Wegmans.Item) (its : list Wegmans.Item) :
  counted (item :: its) =
  (if Wegmans.is_removed item then
     match Wegmans.child_order_item item with
     | Some child => [child]
     | None => []
     end
   else [item]) ++ counted its.
Proof. done. Qed.

Lemma counted_app (l1 l2 : list Wegmans.Item) :
  counted (l1 ++ l2) = counted l1 ++ counted l2.
Proof. unfold counted. apply flat_map_app. Qed.

Lemma items_loop_counted `{Runtime} (its : list Wegmans.Item) : ∀ t g,
  Wegmans.items_loop its t g = plain_loop (counted its) t g.
Proof.
  induction its as [|item its IH]; intros t g; [done|].
  rewrite counted_cons. cbn [Wegmans.items_loop].
  destruct (Wegmans.is_removed item).
  - destruct (Wegmans.child_order_item item) as [child|]; cbn [app plain_loop]; [|apply IH].
    destruct (Wegmans.req (Wegmans.sub_total child)); cbn [mbind Res_bind]; [|done].
    destruct (Wegmans.operand _); cbn [mbind Res_bind]; [|done].
    destruct (Wegmans.cathash_of child); cbn [mbind Res_bind]; [|done].
    apply IH.
  - cbn [app plain_loop].
    destruct (Wegmans.req (Wegmans.sub_total item)); cbn [mbind Res_bind]; [|done].
    destruct (Wegmans.operand _); cbn [mbind Res_bind]; [|done].
    destruct (Wegmans.cathash_of item); cbn [mbind Res_bind]; [|done].
    apply IH.
Qed.

Lemma plain_loop_total `{Runtime} (its : list Wegmans.Item) : ∀ t g t' g',
  plain_loop its t g = Ok (t', g') →
  ∃ ns, sub_totals its = Ok ns ∧ t' = foldl Dec.add t ns.
Proof.
  unfold sub_totals.
  induction its as [|item its IH]; intros t g t' g' Hl; cbn [plain_loop mapR] in *.
  - injection Hl as <- <-. by exists [].
  - bind_inv Hl st Est. bind_inv Hl n En. bind_inv Hl c Ec.
    apply IH in Hl as (ns & Hns & ->).
    exists (n :: ns). cbn [mbind Res_bind]. rewrite En. cbn [mbind Res_bind].
    by rewrite Hns.
Qed.

Lemma fixme_is_not_groceries (x : string) :
  String.eqb ("Expenses:FIXME:" +:+ x) "Expenses:Food:Groceries" = false.
Proof. done. Qed.

Lemma category_posting_account `{Runtime} g p :
  Wegmans.category_posting g = Ok p → account p = "Expenses:FIXME:" +:+ g.1.
Proof.
  unfold Wegmans.category_posting. intros Hp. bind_inv Hp x E.
  destruct x as [cat_total item_meta]. by injection Hp as <-.
Qed.

Lemma category_postings_not_groceries `{Runtime} grouped : ∀ ps,
  mapR Wegmans.category_posting grouped = Ok ps →
  List.filter (fun p => String.eqb (account p) "Expenses:Food:Groceries") ps = [].
Proof.
  induction grouped as [|g grouped IH]; intros ps Hps; cbn [mapR] in Hps.
  - by injection Hps as <-.
  - bind_inv Hps p Ep. bind_inv Hps ps' Eps. injection Hps as <-.
    cbn [List.filter]. rewrite (category_posting_account _ _ Ep).
    rewrite fixme_is_not_groceries. by apply IH.
Qed.

Lemma discrepancy_posting_account (c i t : Dec.t) :
  List.filter (fun p => String.eqb (account p) "Expenses:Food:Groceries")
    (Wegmans.discrepancy_posting c i t)
  = Wegmans.discrepancy_posting c i t.
Proof. unfold Wegmans.discrepancy_posting. by destruct (negb _). Qed.

(** C6.  When an import result is built for an order, its transaction has
    a posting to the discrepancy account exactly when the charged total
    differs from the sum of the sub-totals of the items that count plus the
    tax total, and the units of that posting are the charged total minus
    that sum; there is never more than one such posting. *)
Theorem discrepancy_posting_emitted `{Runtime} (o : Wegmans.Order) (r : ImportResult) :
  Wegmans._make_import_result o = Ok r →
  ∃ t ft charge_total tax_total its ns,
    entries r = [DTransaction t] ∧
    Wegmans.final_totals o = Some ft ∧
    Wegmans.total ft = Some (PNum charge_total) ∧
    Wegmans.get_or (Wegmans.tax_total ft) (PNum (Dec.of_Z 0)) = PNum tax_total ∧
    match Wegmans.items o with Some l => Some l | None => Wegmans.order_items o end
    = Some its ∧
    sub_totals (counted its) = Ok ns ∧
    discrepancies t =
      if Dec.eqb charge_total (Dec.add (dec_sum ns) tax_total) then []
      else [mkPosting "Expenses:Food:Groceries"
              (Some (mkAmount (Dec.sub charge_total (Dec.add (dec_sum ns) tax_total))
                       (Some "USD")))
              None None (Some (<["wegmans_comment" := PStr "Unknown discrepancy"]> ∅))].
Proof.
  intros Hm. unfold Wegmans._make_import_result in Hm.
  bind_inv Hm order_id E1. bind_inv Hm ts E2. bind_inv Hm st E3.
  bind_inv Hm store_nm E4. bind_inv Hm charge_meta E5. bind_inv Hm ft E6.
  bind_inv Hm its E7. bind_inv Hm lp E8. destruct lp as [item_total grouped].
  bind_inv Hm charge_v E9. bind_inv Hm charge_total E10.
  bind_inv Hm tax_total E11. bind_inv Hm by_category E12. bind_inv Hm d E13.
  injection Hm as <-.
  rewrite items_loop_counted in E8.
  apply plain_loop_total in E8 as (ns & Hns & ->).
  eexists _, ft, charge_total, tax_total, its, ns.
  split; [reflexivity|].
  split; [by apply req_Ok|].
  split; [apply req_Ok in E9; apply decimal_of_Ok in E10; by subst|].
  split; [by apply decimal_of_Ok|].
  split.
  { destruct (Wegmans.items o); [by injection E7 as ->|].
    destruct (Wegmans.order_items o); [by injection E7 as ->|done]. }
  split; [done|].
  unfold discrepancies. cbn [postings app List.filter account].
  change (String.eqb "Expenses:FIXME:Charge" "Expenses:Food:Groceries") with false.
  change (String.eqb "Expenses:FIXME:Tax" "Expenses:Food:Groceries") with false.
  cbv iota.
  rewrite List.filter_app, discrepancy_posting_account.
  rewrite (category_postings_not_groceries _ _ E12), app_nil_r.
  unfold Wegmans.discrepancy_posting, dec_sum.
  by destruct (Dec.eqb _ _).
Qed.

Lemma discrepancy_posting_emitted_witness :
  ∃ r,
    Wegmans._make_import_result (H := Calendar.reference_runtime)
      (grocery_order None (Dec.mk 10100 (-2)) two_items) = Ok r ∧
    ∃ t ft charge_total tax_total its ns,
      entries r = [DTransaction t] ∧
      Wegmans.final_totals (grocery_order None (Dec.mk 10100 (-2)) two_items) = Some ft ∧
      Wegmans.total ft = Some (PNum charge_total) ∧
      Wegmans.get_or (Wegmans.tax_total ft) (PNum (Dec.of_Z 0)) = PNum tax_total ∧
      match Wegmans.items (grocery_order None (Dec.mk 10100 (-2)) two_items) with
      | Some l => Some l
      | None => Wegmans.order_items (grocery_order None (Dec.mk 10100 (-2)) two_items)
      end = Some its ∧
      sub_totals (counted its) = Ok ns ∧
      discrepancies t =
        if Dec.eqb charge_total (Dec.add (dec_sum ns) tax_total) then []
        else [mkPosting "Expenses:Food:Groceries"
                (Some (mkAmount (Dec.sub charge_total (Dec.add (dec_sum ns) tax_total))
                         (Some "USD")))
                None None (Some (<["wegmans_comment" := PStr "Unknown discrepancy"]> ∅))].
Proof.
  eexists. split; [vm_compute; reflexivity|].
  apply (discrepancy_posting_emitted (H := Calendar.reference_runtime)).
  vm_compute. reflexivity.
Defined.

(** The two orders of the specification: items of 50.00 and 42.00 and a tax
    of 8.00.  Charged 100.00 there is no discrepancy posting; charged
    101.00 there is one, of exactly 1.00. *)
Example no_discrepancy_at_100 :
  ∃ r t,
    Wegmans._make_import_result (H := Calendar.reference_runtime)
      (grocery_order None (Dec.mk 10000 (-2)) two_items) = Ok r ∧
    entries r = [DTransaction t] ∧ discrepancies t = [].
Proof.
  do 2 eexists. split; [vm_compute; reflexivity|]. split; vm_compute; reflexivity.
Qed.

Example discrepancy_of_1_at_101 :
  ∃ r t,
    Wegmans._make_import_result (H := Calendar.reference_runtime)
      (grocery_order None (Dec.mk 10100 (-2)) two_items) = Ok r ∧
    entries r = [DTransaction t] ∧
    units <$> discrepancies t = [Some (mkAmount (Dec.mk 100 (-2)) (Some "USD"))].
Proof.
  do 2 eexists. split; [vm_compute; reflexivity|]. split; vm_compute; reflexivity.
Qed.

Lemma make_import_result_counted `{Runtime} (o : Wegmans.Order)
    (its its' : list Wegmans.Item) :
  counted its = counted its' →
  Wegmans._make_import_result (set_items o its)
  = Wegmans._make_import_result (set_items o its').
Proof.
  intros Hc. unfold Wegmans._make_import_result, set_items.
  destruct (Wegmans.items o);
    cbn [Wegmans.id Wegmans.timestamp Wegmans.fulfillment_date Wegmans.store
         Wegmans.payment_instruments Wegmans.final_totals Wegmans.items
         Wegmans.order_items Wegmans.status Wegmans.order_filename];
    cbn [mbind Res_bind];
    by rewrite !items_loop_counted, Hc.
Qed.

(** C10.  The first loop over the items of an order treats them as the
    list of the items that count: a removed item with a replacement stands
    for the replacement, whose sub-total is added and which is put in its
    bucket, and a removed item without one is passed over.  An order with
    such an item has the import result of the order without it. *)
Theorem removed_items `{Runtime} (item : Wegmans.Item) (l1 l2 : list Wegmans.Item) :
  Wegmans.is_removed item = true →
  (∀ t g, Wegmans.items_loop (l1 ++ item :: l2) t g
          = plain_loop (counted (l1 ++ item :: l2)) t g) ∧
  counted (l1 ++ item :: l2)
  = counted l1 ++
    match Wegmans.child_order_item item with
    | Some child => [child]
    | None => []
    end ++ counted l2 ∧
  (Wegmans.child_order_item item = None →
   (∀ t g, Wegmans.items_loop (l1 ++ item :: l2) t g
           = Wegmans.items_loop (l1 ++ l2) t g) ∧
   ∀ o, Wegmans._make_import_result (set_items o (l1 ++ item :: l2))
        = Wegmans._make_import_result (set_items o (l1 ++ l2))).
Proof.
  intros Hr.
  assert (Hc : counted (l1 ++ item :: l2)
               = counted l1 ++
                 match Wegmans.child_order_item item with
                 | Some child => [child]
                 | None => []
                 end ++ counted l2).
  { by rewrite counted_app, counted_cons, Hr. }
  split; [intros; apply items_loop_counted|]. split; [done|].
  intros Hn. rewrite Hn in Hc. cbn [app] in Hc. rewrite <- counted_app in Hc.
  split.
  - intros t g. by rewrite !items_loop_counted, Hc.
  - intros o. by apply make_import_result_counted.
Qed.

Lemma removed_items_witness :
  let item := removed None (grocery "Milk" "Dairy" (Dec.mk 399 (-2))) in
  let o := grocery_order None (Dec.mk 10000 (-2)) [] in
  Wegmans.is_removed item = true ∧
  Wegmans._make_import_result (H := Calendar.reference_runtime)
    (set_items o ([grocery "Bread" "Bakery" (Dec.mk 5000 (-2))] ++ item :: []))
  = Wegmans._make_import_result (H := Calendar.reference_runtime)
      (set_items o ([grocery "Bread" "Bakery" (Dec.mk 5000 (-2))] ++ [])).
Proof.
  intros item o. split; [reflexivity|].
  apply (removed_items (H := Calendar.reference_runtime) item
           [grocery "Bread" "Bakery" (Dec.mk 5000 (-2))] [] eq_refl).
  reflexivity.
Defined.

(** ** Components of a payment *)

(** C8 (amended).  For an entry whose transaction code is neither "9999"
    nor "5850", the transaction has a posting for the principal, the
    interest, the escrow and the other amount exactly when that amount is
    present and not zero, on the account of the component and with the
    amount as units; an absent or zero amount gives no posting. *)
Theorem component_postings (e : FifthThird.FifthThirdEntry) (r : ImportResult) :
  py_eqb (FifthThird.transaction_code e) (PStr "9999") = false →
  py_eqb (FifthThird.transaction_code e) (PStr "5850") = false →
  FifthThird._make_import_result e = Ok r →
  ∃ t,
    entries r = [DTransaction t] ∧
    postings_to "Liabilities:Mortgage:FifthThird" t
    = component_posting "Liabilities:Mortgage:FifthThird" (FifthThird.principal_amount e) ∧
    postings_to "Expenses:House:Mortgage:Interest" t
    = component_posting "Expenses:House:Mortgage:Interest" (FifthThird.interest_amount e) ∧
    postings_to "Assets:FifthThird:Escrow" t
    = component_posting "Assets:FifthThird:Escrow" (FifthThird.escrow_amount e) ∧
    postings_to "Expenses:House:Mortgage:Other" t
    = component_posting "Expenses:House:Mortgage:Other" (FifthThird.other_amount e).
Proof.
  intros H1 H2 Hm. unfold FifthThird._make_import_result in Hm.
  rewrite H1, H2 in Hm. bind_inv Hm src E. injection Hm as <-.
  eexists. split; [reflexivity|].
  unfold postings_to, component_posting, FifthThird.dst. cbn [postings].
  destruct (amount_truthy (FifthThird.principal_amount e)),
           (amount_truthy (FifthThird.interest_amount e)),
           (amount_truthy (FifthThird.escrow_amount e)),
           (amount_truthy (FifthThird.other_amount e)); by repeat split.
Qed.

Lemma component_postings_witness :
  let e := loan_payment in
  py_eqb (FifthThird.transaction_code e) (PStr "9999") = false ∧
  py_eqb (FifthThird.transaction_code e) (PStr "5850") = false ∧
  ∃ r t,
    FifthThird._make_import_result e = Ok r ∧
    entries r = [DTransaction t] ∧
    postings_to "Liabilities:Mortgage:FifthThird" t
    = component_posting "Liabilities:Mortgage:FifthThird" (FifthThird.principal_amount e) ∧
    postings_to "Expenses:House:Mortgage:Interest" t
    = component_posting "Expenses:House:Mortgage:Interest" (FifthThird.interest_amount e) ∧
    postings_to "Assets:FifthThird:Escrow" t
    = component_posting "Assets:FifthThird:Escrow" (FifthThird.escrow_amount e) ∧
    postings_to "Expenses:House:Mortgage:Other" t
    = component_posting "Expenses:House:Mortgage:Other" (FifthThird.other_amount e).
Proof.
  intros e. split; [reflexivity|]. split; [reflexivity|].
  destruct (FifthThird._make_import_result e) as [r|] eqn:Hm; [|by vm_compute in Hm].
  exists r.
  destruct (component_postings e r eq_refl eq_refl Hm) as (t & Ht).
  exists t. split; [reflexivity|exact Ht].
Defined.

(** C8 (as stated).  An escrow disbursement without an escrow amount still
    gets its destination posting, whose units are the absent amount. *)
Lemma disbursement_counterexample :
  FifthThird.escrow_amount disbursement_without_escrow = None ∧
  ∃ r t src p,
    FifthThird._make_import_result disbursement_without_escrow = Ok r ∧
    entries r = [DTransaction t] ∧
    postings t = [src; p] ∧
    account p = "Expenses:FIXME" ∧
    units p = FifthThird.escrow_amount disbursement_without_escrow.
Proof.
  split; [reflexivity|]. do 4 eexists.
  split; [vm_compute; reflexivity|]. repeat split; vm_compute; reflexivity.
Qed.

(** ** The identifier of a Fifth Third record

    C7.  The documentation of [fifththird.py] says that the [id] of a record
    is generated anew in each session and cannot be used to de-duplicate;
    [prepare] uses it alone.  Once the disbursement fetched as "UUID1" is in
    the ledger, the same fetch is skipped, and the same disbursement fetched
    in another session as "UUID7" becomes pending a second time, with the
    same date and the same postings. *)
Theorem refetched_record_is_imported_again :
  ∃ r r',
    FifthThird._make_import_result (disbursement (PStr "UUID1")) = Ok r ∧
    FifthThird._get_existing_transaction_ids (all_entries (ledger_of r))
    = Ok [PStr "UUID1"] ∧
    pending (FifthThird.prepare [disbursement (PStr "UUID1")] (ledger_of r)
               empty_results).1 = [] ∧
    pending (FifthThird.prepare [disbursement (PStr "UUID7")] (ledger_of r)
               empty_results).1 = [r'] ∧
    date_ r' = date_ r ∧
    booked <$> entries r' = booked <$> entries r.
Proof.
  do 2 eexists. split; [vm_compute; reflexivity|].
  repeat split; vm_compute; reflexivity.
Qed.
